(** * The van der Pol / LSTM tutorial notebook, embedded and verified

    Source: [tutorial/5_recurrent_network_tutorial.ipynb].  The notebook is a
    short script over numpy, scipy, matplotlib and torch.  Its own code is
    embedded below function by function, under the names it has in the
    notebook.  The libraries appear in two ways:

    - array plumbing whose result the notebook's properties depend on
      (indexing, slicing, [zeros], [.T], [swapaxes], [linspace], [meshgrid],
      [interp], the conversion to a tensor) is modelled on nested lists, with
      the errors numpy raises written out;
    - everything else ([np.random.rand], [solve_ivp], matplotlib, the torch
      model, loss and optimizer) is a field of a record of library calls, so
      that every statement holds for whatever those calls do.

    Numbers are kept behind the interface [PyFloat], with two instances:
    exact rationals and IEEE binary64 (the kernel's primitive floats). *)

From Stdlib Require Import String Bool ZArith QArith Lia Lqa Psatz Floats List.
Import ListNotations.

Set Implicit Arguments.
Close Scope Q_scope.

(* ================================================================== *)
(** * Numbers *)
(* ================================================================== *)

(** The arithmetic the notebook uses on Python floats and numpy float64
    scalars.  [lit] reads a numeric literal (an int literal that meets a float
    is promoted by the same map), [int_of] is Python's [int(x)], [float32] is
    the rounding [torch.Tensor] applies to the float64 data it copies. *)
Class PyFloat (F : Type) : Type := {
  lit : Q -> F;
  add : F -> F -> F;
  sub : F -> F -> F;
  mul : F -> F -> F;
  div : F -> F -> F;
  pow : F -> Z -> F;
  ltb : F -> F -> bool;
  eqb : F -> F -> bool;
  int_of : F -> Z;
  float32 : F -> F
}.

Declare Scope py_scope.
Delimit Scope py_scope with py.
Notation "x + y" := (add x y) : py_scope.
Notation "x - y" := (sub x y) : py_scope.
Notation "x * y" := (mul x y) : py_scope.
Notation "x / y" := (div x y) : py_scope.
Notation "x ** k" := (pow x k) (at level 30, right associativity) : py_scope.
Notation "x <? y" := (ltb x y) : py_scope.
Notation "x =? y" := (eqb x y) : py_scope.

(** ** Exact rationals *)

#[export] Instance PyFloat_Q : PyFloat Q := {
  lit := fun q => q;
  add := Qplus;
  sub := Qminus;
  mul := Qmult;
  div := Qdiv;
  pow := Qpower;
  ltb := fun x y => negb (Qle_bool y x);
  eqb := Qeq_bool;
  int_of := fun x => Z.quot (Qnum x) (Zpos (Qden x));
  float32 := fun x => x
}.

(** ** IEEE binary64 *)

Module Binary64.

(** An integer as the nearest binary64 value. *)
Definition of_Z (z : Z) : float :=
  match z with
  | Z0 => PrimFloat.zero
  | Zpos _ => SF2Prim (binary_normalize prec emax z 0 false)
  | Zneg _ => SF2Prim (binary_normalize prec emax z 0 true)
  end.

(** A literal [n/d] with [n] and [d] below 2^53 is the correctly rounded
    quotient, which is how [0.1] is read. *)
Definition of_Q (q : Q) : float :=
  PrimFloat.div (of_Z (Qnum q)) (of_Z (Zpos (Qden q))).

Definition pow_pos (x : float) (p : positive) : float :=
  Pos.iter_op PrimFloat.mul p x.

(** [x ** k] for an integer [k], by repeated multiplication: [x ** 2] is the
    correctly rounded [x * x]. *)
Definition powZ (x : float) (k : Z) : float :=
  match k with
  | Z0 => PrimFloat.one
  | Zpos p => pow_pos x p
  | Zneg p => PrimFloat.div PrimFloat.one (pow_pos x p)
  end.

(** [int(x)]: truncation toward zero (Python raises on nan and infinities,
    which the notebook never converts; they are sent to [0] here). *)
Definition to_Z (f : float) : Z :=
  match Prim2SF f with
  | S754_finite s m e =>
      let a := match e with
               | Z0 => Zpos m
               | Zpos k => Z.shiftl (Zpos m) (Zpos k)
               | Zneg k => Z.shiftr (Zpos m) (Zpos k)
               end in
      if s then Z.opp a else a
  | _ => 0%Z
  end.

(** Rounding to binary32 (24 bits of precision, exponents up to 128), kept as
    a binary64 value. *)
Definition to_float32 (f : float) : float :=
  match Prim2SF f with
  | S754_finite s m e =>
      SF2Prim (binary_normalize 24 128 (cond_Zopp s (Zpos m)) e s)
  | _ => f
  end.

End Binary64.

#[export] Instance PyFloat_float : PyFloat float := {
  lit := Binary64.of_Q;
  add := PrimFloat.add;
  sub := PrimFloat.sub;
  mul := PrimFloat.mul;
  div := PrimFloat.div;
  pow := Binary64.powZ;
  ltb := PrimFloat.ltb;
  eqb := PrimFloat.eqb;
  int_of := Binary64.to_Z;
  float32 := Binary64.to_float32
}.

(* ================================================================== *)
(** * Exceptions and the two monads *)
(* ================================================================== *)

(** The exceptions numpy raises in the modelled array operations, and
    whatever a library call raises. *)
Inductive exn : Type :=
| IndexError
| ValueError
| AxisError
| LibraryError (tag : string).

Inductive result (X : Type) : Type :=
| Ok (x : X)
| Raise (e : exn).

Arguments Ok {X} x.
Arguments Raise {X} e.

Definition rbind {X Y : Type} (r : result X) (k : X -> result Y) : result Y :=
  match r with
  | Ok x => k x
  | Raise e => Raise e
  end.

Declare Scope result_scope.
Delimit Scope result_scope with result.
Notation "x <-- r ; k" := (rbind r (fun x => k))
  (at level 61, r at next level, right associativity) : result_scope.
Notation "' p <-- r ; k" := (rbind r (fun x => match x with p => k end))
  (at level 61, p pattern, r at next level, right associativity) : result_scope.

(* ================================================================== *)
(** * numpy arrays on nested lists *)
(* ================================================================== *)

(** A one-dimensional array is a list, a two-dimensional one a list of rows,
    a three-dimensional one a list of matrices.  [ndarray] keeps the number of
    dimensions where the notebook's code depends on it ([np.array] of an empty
    list is one-dimensional). *)
Inductive ndarray (F : Type) : Type :=
| Nd1 (v : list F)
| Nd2 (m : list (list F))
| Nd3 (c : list (list (list F))).

Arguments Nd1 {F} v.
Arguments Nd2 {F} m.
Arguments Nd3 {F} c.

(** [a[i]] for [0 <= i]: IndexError past the end. *)
Definition index {A : Type} (a : list A) (i : nat) : result A :=
  match nth_error a i with
  | Some x => Ok x
  | None => Raise IndexError
  end.

(** [a[i] = x] in place, returned as the new array: IndexError past the end. *)
Fixpoint set_index {A : Type} (a : list A) (i : nat) (x : A) : result (list A) :=
  match a, i with
  | [], _ => Raise IndexError
  | _ :: a', O => Ok (x :: a')
  | y :: a', S i' =>
      match set_index a' i' x with
      | Ok r => Ok (y :: r)
      | Raise e => Raise e
      end
  end.

(** [mapM] of the error monad: the first exception wins. *)
Fixpoint rmap {A B : Type} (f : A -> result B) (l : list A) : result (list B) :=
  match l with
  | [] => Ok []
  | x :: l' =>
      match f x with
      | Ok y =>
          match rmap f l' with
          | Ok ys => Ok (y :: ys)
          | Raise e => Raise e
          end
      | Raise e => Raise e
      end
  end.

(** [m[:, j]]: column [j] of a matrix. *)
Definition get_col {A : Type} (m : list (list A)) (j : nat) : result (list A) :=
  rmap (fun row => index row j) m.

(** [zip] that refuses lists of different lengths. *)
Fixpoint zip_exact {A B : Type} (l : list A) (l' : list B) : result (list (A * B)) :=
  match l, l' with
  | [], [] => Ok []
  | x :: t, y :: t' =>
      match zip_exact t t' with
      | Ok r => Ok ((x, y) :: r)
      | Raise e => Raise e
      end
  | _, _ => Raise ValueError
  end.

(** The value of an assignment into a slice of [n] cells: a sequence of [n]
    values as it is, a sequence of one value repeated (numpy's broadcasting),
    anything else a ValueError. *)
Definition broadcast_to {A : Type} (n : nat) (v : list A) : result (list A) :=
  if Nat.eqb (length v) n then Ok v
  else match v with
       | [x] => Ok (repeat x n)
       | _ => Raise ValueError
       end.

(** [m[:, j] = v]. *)
Definition set_col {A : Type} (m : list (list A)) (j : nat) (v : list A)
  : result (list (list A)) :=
  rbind (broadcast_to (length m) v) (fun v' =>
  rbind (zip_exact m v') (fun rows =>
  rmap (fun rx => set_index (fst rx) j (snd rx)) rows)).

(** [m[i, :] = v]. *)
Definition set_row {A : Type} (m : list (list A)) (i : nat) (v : list A)
  : result (list (list A)) :=
  rbind (index m i) (fun row =>
  rbind (broadcast_to (length row) v) (fun v' =>
  set_index m i v')).

(** [m.T], and [swapaxes(0, 1)] of a three-dimensional array (then the cells
    are rows).  [d] fills cells a ragged argument lacks; an array has none. *)
Definition transpose {A : Type} (d : A) (m : list (list A)) : list (list A) :=
  match m with
  | [] => []
  | r :: _ => map (fun j => map (fun row => nth j row d) m) (seq 0 (length r))
  end.

(** [y[-1] = x] on a non-empty array. *)
Definition set_last {A : Type} (y : list A) (x : A) : list A :=
  match y with
  | [] => []
  | _ => removelast y ++ [x]
  end.

Section Numpy.

Context {F : Type} `{PyFloat F}.

Local Open Scope py_scope.

Definition zero : F := lit 0%Q.

(** [np.zeros((r, c))]. *)
Definition np_zeros (r c : nat) : list (list F) := repeat (repeat zero c) r.

(** [np.zeros_like(m)]. *)
Definition np_zeros_like (m : list (list F)) : list (list F) :=
  map (map (fun _ => zero)) m.

(** [np.linspace(start, stop, num)] with the default [endpoint=True], after
    numpy/core/function_base.py: [arange(num) * step + start] with the last
    sample overwritten by [stop]; a negative [num] is a ValueError. *)
Definition np_linspace (start stop : F) (num : Z) : result (list F) :=
  if (num <? 0)%Z then Raise ValueError
  else
    let dv := (num - 1)%Z in
    let delta := stop - start in
    let y := map (fun i => lit (inject_Z (Z.of_nat i))) (seq 0 (Z.to_nat num)) in
    let y :=
      if (0 <? dv)%Z then
        let step := delta / lit (inject_Z dv) in
        if step =? zero
        then map (fun v => (v / lit (inject_Z dv)) * delta) y
        else map (fun v => v * step) y
      else map (fun v => v * delta) y in
    let y := map (fun v => v + start) y in
    Ok (if (1 <? num)%Z then set_last y stop else y).

(** [np.meshgrid(x1, x2)] with the default [indexing='xy']:
    [X1[i][j] = x1[j]] and [X2[i][j] = x2[i]]. *)
Definition np_meshgrid (x1 x2 : list F) : list (list F) * list (list F) :=
  (map (fun _ => x1) x2, map (fun v => map (fun _ => v) x1) x2).

(** One sample of [np.interp] on the knots [(x0, y0) :: rest], [x0 <= x]:
    the segment that holds [x], by a scan from the left (numpy searches by
    bisection; on increasing knots, the only ones numpy specifies, both find
    the same segment).  At a knot the knot's value is returned, past the last
    knot the last value. *)
Fixpoint interp_from (x x0 y0 : F) (rest : list (F * F)) : F :=
  match rest with
  | [] => y0
  | (x1, y1) :: rest' =>
      if x <? x1 then
        if x =? x0 then y0
        else ((y1 - y0) / (x1 - x0)) * (x - x0) + y0
      else interp_from x x1 y1 rest'
  end.

Definition interp_at (knots : list (F * F)) (x : F) : F :=
  match knots with
  | [] => x
  | (x0, y0) :: rest => if x <? x0 then y0 else interp_from x x0 y0 rest
  end.

(** [np.interp(x, xp, fp)]: ValueError on empty knots and on [xp], [fp] of
    different lengths; one sample per element of [x]. *)
Definition np_interp (x xp fp : list F) : result (list F) :=
  match xp with
  | [] => Raise ValueError
  | _ => rbind (zip_exact xp fp) (fun knots => Ok (map (interp_at knots) x))
  end.

(** Arithmetic between a scalar and a matrix, element by element. *)
Definition mat_map (f : F -> F) (m : list (list F)) : list (list F) :=
  map (map f) m.

(** Arithmetic between two matrices, element by element.  The shapes have to
    agree (numpy would also stretch an axis of length one; no array of the
    notebook has such an axis). *)
Definition mat_map2 (f : F -> F -> F) (a b : list (list F))
  : result (list (list F)) :=
  rbind (zip_exact a b) (fun rows =>
  rmap (fun rr => rbind (zip_exact (fst rr) (snd rr)) (fun cells =>
                  Ok (map (fun c => f (fst c) (snd c)) cells))) rows).

(** [np.array(l)] for a list of two-dimensional arrays: one more dimension in
    front when the list is not empty and its elements have one shape, else a
    ValueError; the empty list gives the empty one-dimensional array. *)
Definition same_shape (a b : list (list F)) : bool :=
  Nat.eqb (length a) (length b)
  && forallb (fun r => forallb (fun r' => Nat.eqb (length r) (length r')) b) a.

Definition np_array (l : list (list (list F))) : result (ndarray F) :=
  match l with
  | [] => Ok (Nd1 [])
  | a :: l' => if forallb (same_shape a) l' then Ok (Nd3 l) else Raise ValueError
  end.

(** [a.swapaxes(0, 1)]: an AxisError on a one-dimensional array. *)
Definition swapaxes01 (a : ndarray F) : result (ndarray F) :=
  match a with
  | Nd1 _ => Raise AxisError
  | Nd2 m => Ok (Nd2 (transpose zero m))
  | Nd3 c => Ok (Nd3 (transpose [] c))
  end.

(** [torch.Tensor(a)]: the same shape, every element rounded to float32. *)
Definition torch_Tensor (a : ndarray F) : ndarray F :=
  match a with
  | Nd1 v => Nd1 (map float32 v)
  | Nd2 m => Nd2 (map (map float32) m)
  | Nd3 c => Nd3 (map (map (map float32)) c)
  end.

End Numpy.

(* ================================================================== *)
(** * Library calls and the program monad *)
(* ================================================================== *)

(** The object [solve_ivp] returns: the times [t] it stepped through and, per
    state variable, the row [y[i, :]] of values at those times. *)
Record OdeResult (F : Type) : Type := {
  sol_t : list F;
  sol_y : list (list F)
}.

(** The library calls the notebook makes and does not look inside.  [S] is
    the state of the Python process (the random generator, the figures, the
    parameters and gradients of the torch model), [L] the loss tensor.  Every
    call may raise.  [run_model_loss] stands for the lines the notebook leaves
    to the student (`run the model and calculate the loss`). *)
Record Library (F S L : Type) : Type := {
  np_random_rand : nat -> S -> result (list F * S);
  solve_ivp : (F -> list F -> result (list F)) -> F * F -> list F -> F ->
              S -> result (OdeResult F * S);
  plt_figure : Z * Z -> S -> result (unit * S);
  plt_streamplot : list (list F) -> list (list F) -> list (list F) ->
                   list (list F) -> Z -> S -> result (unit * S);
  model_zero_grad : S -> result (unit * S);
  run_model_loss : ndarray F -> ndarray F -> S -> result (L * S);
  loss_backward : L -> S -> result (unit * S);
  loss_item : L -> S -> result (F * S);
  py_print : Z -> F -> S -> result (unit * S);
  optimizer_step : S -> result (unit * S)
}.

(** One entry per library call made, in the order of the calls. *)
Inductive call (F : Type) : Type :=
| Call_np_random_rand (k : nat)
| Call_solve_ivp (t_span : F * F) (y0 : list F) (max_step : F)
| Call_plt_figure (figsize : Z * Z)
| Call_plt_streamplot (X1 X2 dx1 dx2 : list (list F)) (density : Z)
| Call_model_zero_grad
| Call_run_model_loss (inputs trajectories : ndarray F)
| Call_loss_backward
| Call_loss_item
| Call_py_print (batch : Z) (running_loss : F)
| Call_optimizer_step.

Arguments Call_np_random_rand {F} k.
Arguments Call_plt_figure {F} figsize.
Arguments Call_model_zero_grad {F}.
Arguments Call_loss_backward {F}.
Arguments Call_loss_item {F}.
Arguments Call_optimizer_step {F}.

Record world (F S : Type) : Type := {
  w_state : S;
  w_calls : list (call F)
}.

(** A statement of the notebook: it runs in a world and either returns a
    value and the next world or raises. *)
Definition prog (F S X : Type) : Type := world F S -> result (X * world F S).

Definition ret {F S X : Type} (x : X) : prog F S X := fun w => Ok (x, w).

Definition bind {F S X Y : Type} (m : prog F S X) (k : X -> prog F S Y)
  : prog F S Y :=
  fun w => match m w with
           | Ok (x, w') => k x w'
           | Raise e => Raise e
           end.

(** A pure array operation inside a statement. *)
Definition lift {F S X : Type} (r : result X) : prog F S X :=
  fun w => match r with
           | Ok x => Ok (x, w)
           | Raise e => Raise e
           end.

(** A library call: it is recorded, then it acts on the process state. *)
Definition do_call {F S X : Type} (c : call F) (f : S -> result (X * S))
  : prog F S X :=
  fun w => match f (w_state w) with
           | Ok (x, s') => Ok (x, {| w_state := s'; w_calls := w_calls w ++ [c] |})
           | Raise e => Raise e
           end.

Declare Scope prog_scope.
Delimit Scope prog_scope with prog.
Notation "x <- m ;; k" := (bind m (fun x => k))
  (at level 61, m at next level, right associativity) : prog_scope.
Notation "' p <- m ;; k" := (bind m (fun x => match x with p => k end))
  (at level 61, p pattern, m at next level, right associativity) : prog_scope.
Notation "m ;; k" := (bind m (fun _ => k))
  (at level 61, right associativity) : prog_scope.

(** [for i in <list>: acc = body(i, acc)]. *)
Fixpoint for_each {F S A I : Type} (body : I -> A -> prog F S A)
  (l : list I) (acc : A) : prog F S A :=
  match l with
  | [] => ret acc
  | i :: l' => bind (body i acc) (for_each body l')
  end.

(** [for i in range(n)]. *)
Definition for_range {F S A : Type} (n : nat) (body : nat -> A -> prog F S A)
  (acc : A) : prog F S A :=
  for_each body (seq 0 n) acc.

(* ================================================================== *)
(** * The notebook *)
(* ================================================================== *)

Section Dynamics.

Context {F : Type} `{PyFloat F}.

Local Open Scope py_scope.
Local Open Scope result_scope.

(** [def van_der_pol_dynamics(t, x)]: [x[1]] is read first, so a state with
    fewer than two entries is an IndexError. *)
Definition van_der_pol_dynamics (t : F) (x : list F) : result (list F) :=
  let mu := lit (1 # 10) in
  dx1 <-- index x 1 ;
  a <-- index x 0 ;
  b <-- index x 1 ;
  c <-- index x 0 ;
  let dx2 := mu * (lit 1 - a ** 2) * b - c in
  Ok [dx1; dx2].

(** The array arithmetic of [plot_flow_field]:
    [dx1 = X2] and [dx2 = mu * (1-X1**2) * X2 - X1]. *)
Definition flow_derivatives (X1 X2 : list (list F))
  : result (list (list F) * list (list F)) :=
  let mu := lit (1 # 10) in
  let dx1 := X2 in
  p <-- mat_map2 mul
          (mat_map (fun v => mu * v)
             (mat_map (fun v => lit 1 - v) (mat_map (fun v => v ** 2) X1)))
          X2 ;
  dx2 <-- mat_map2 sub p X1 ;
  Ok (dx1, dx2).

(** The grid of [plot_flow_field] and the derivatives on it. *)
Definition flow_field
  : result (list (list F) * list (list F) * list (list F) * list (list F)) :=
  x1 <-- np_linspace (lit (-5)) (lit 5) 20 ;
  x2 <-- np_linspace (lit (-5)) (lit 5) 20 ;
  let (X1, X2) := np_meshgrid x1 x2 in
  ' (dx1, dx2) <-- flow_derivatives X1 X2 ;
  Ok (X1, X2, dx1, dx2).

(** [int(T/dt)+1] with [T = 2] and [dt = .1]. *)
Definition num_samples : Z := (int_of (lit 2 / lit (1 # 10))%py + 1)%Z.

(** The length [K] of the time grid every trajectory is resampled on. *)
Definition K : nat := Z.to_nat num_samples.

End Dynamics.

Section Notebook.

Context {F S L : Type} `{PyFloat F} (lib : Library F S L).

Local Open Scope py_scope.
Local Open Scope prog_scope.

(** [def plot_flow_field()]. *)
Definition plot_flow_field : prog F S unit :=
  ' (X1, X2, dx1, dx2) <- lift flow_field ;;
  do_call (Call_plt_figure (4, 4)%Z) (plt_figure lib (4, 4)%Z) ;;
  do_call (Call_plt_streamplot X1 X2 dx1 dx2 1)
          (plt_streamplot lib X1 X2 dx1 dx2 1).

(** [def get_random_trajectory()]. *)
Definition get_random_trajectory : prog F S (list (list F)) :=
  let dt := lit (1 # 10) in
  let T := lit 2 in
  r <- do_call (Call_np_random_rand 2) (np_random_rand lib 2) ;;
  let x0 := map (fun u => lit (-5) + lit 10 * u) r in
  solution <- do_call (Call_solve_ivp (lit 0, T) x0 dt)
                (solve_ivp lib van_der_pol_dynamics (lit 0, T) x0 dt) ;;
  times <- lift (np_linspace (lit 0) T (int_of (T / dt)%py + 1)%Z) ;;
  let trajectory := np_zeros 2 (length times) in
  y0 <- lift (index (sol_y solution) 0) ;;
  r0 <- lift (np_interp times (sol_t solution) y0) ;;
  trajectory <- lift (set_row trajectory 0 r0) ;;
  y1 <- lift (index (sol_y solution) 1) ;;
  r1 <- lift (np_interp times (sol_t solution) y1) ;;
  trajectory <- lift (set_row trajectory 1 r1) ;;
  ret trajectory.

(** The body of the loop of [get_minibatch].  [x0] and the two [.T] are views
    in numpy; nothing writes to [trajectory] or [input] after they are taken,
    so values stand for them. *)
Definition get_minibatch_body (i : nat)
  (acc : list (list (list F)) * list (list (list F)))
  : prog F S (list (list (list F)) * list (list (list F))) :=
  let (inputs, trajectories) := acc in
  trajectory <- get_random_trajectory ;;
  x0 <- lift (get_col trajectory 0) ;;
  let input := np_zeros_like trajectory in
  input <- lift (set_col input 0 x0) ;;
  ret (inputs ++ [transpose zero input],
       trajectories ++ [transpose zero trajectory]).

(** [def get_minibatch(n)]. *)
Definition get_minibatch (n : nat) : prog F S (ndarray F * ndarray F) :=
  ' (inputs, trajectories) <- for_range n get_minibatch_body ([], []) ;;
  inputs <- lift (rbind (np_array inputs) swapaxes01) ;;
  trajectories <- lift (rbind (np_array trajectories) swapaxes01) ;;
  ret (torch_Tensor inputs, torch_Tensor trajectories).

(** The body of the training loop. *)
Definition training_body (sample : nat) (running_loss : F) : prog F S F :=
  do_call Call_model_zero_grad (model_zero_grad lib) ;;
  ' (initial_conditions, trajectories) <- get_minibatch 20 ;;
  loss <- do_call (Call_run_model_loss initial_conditions trajectories)
            (run_model_loss lib initial_conditions trajectories) ;;
  do_call Call_loss_backward (loss_backward lib loss) ;;
  item <- do_call Call_loss_item (loss_item lib loss) ;;
  let running_loss := lit (9 # 10) * running_loss + lit (1 # 10) * item in
  (if Nat.eqb (sample mod 50) 49
   then do_call (Call_py_print (Z.of_nat sample + 1) running_loss)
          (py_print lib (Z.of_nat sample + 1) running_loss)
   else ret tt) ;;
  do_call Call_optimizer_step (optimizer_step lib) ;;
  ret running_loss.

(** [running_loss = 0] and [for sample in range(2000): ...]; the value is the
    final [running_loss]. *)
Definition training_loop : prog F S F :=
  for_range 2000 training_body (lit 0).

End Notebook.

(* ================================================================== *)
(** * Shapes and contracts *)
(* ================================================================== *)

(** A matrix of shape [(r, c)] and an array of shape [(a, b, c)]. *)
Definition shape2 {A : Type} (m : list (list A)) (r c : nat) : Prop :=
  length m = r /\ Forall (fun row => length row = c) m.

Definition shape3 {A : Type} (x : list (list (list A))) (a b c : nat) : Prop :=
  length x = a /\ Forall (fun m => shape2 m b c) x.

(** [x[t, i, :]]. *)
Definition index3 {A : Type} (x : list (list (list A))) (t i : nat)
  : result (list A) :=
  rbind (index x t) (fun m => index m i).

(** [m[i, j]]. *)
Definition index2 {A : Type} (m : list (list A)) (i j : nat) : result A :=
  rbind (index m i) (fun row => index row j).

(** What scipy documents of the object [solve_ivp] returns for an initial
    state [y0]: at least one time point, and [y] of shape
    [(len(y0), len(t))]. *)
Definition solution_ok {F : Type} (y0 : list F) (sol : OdeResult F) : Prop :=
  sol_t sol <> [] /\ shape2 (sol_y sol) (length y0) (length (sol_t sol)).

Section Contracts.

Context {F S L : Type} `{PyFloat F} (lib : Library F S L).

(** The numeric calls return: [np.random.rand(k)] gives [k] numbers, and
    [solve_ivp] on the van der Pol right-hand side and a state of two numbers
    gives a solution as documented. *)
Definition numeric_calls_ok : Prop :=
  (forall k s, exists r s',
      np_random_rand lib k s = Ok (r, s') /\ length r = k) /\
  (forall span y0 max_step s, length y0 = 2 ->
      exists sol s',
        solve_ivp lib van_der_pol_dynamics span y0 max_step s = Ok (sol, s') /\
        solution_ok y0 sol).

(** The calls of the training cell return. *)
Definition training_calls_ok : Prop :=
  (forall s, exists s', model_zero_grad lib s = Ok (tt, s')) /\
  (forall i t s, exists l s', run_model_loss lib i t s = Ok (l, s')) /\
  (forall l s, exists s', loss_backward lib l s = Ok (tt, s')) /\
  (forall l s, exists x s', loss_item lib l s = Ok (x, s')) /\
  (forall b x s, exists s', py_print lib b x s = Ok (tt, s')) /\
  (forall s, exists s', optimizer_step lib s = Ok (tt, s')).

End Contracts.

(** How often a kind of call occurs in a trace. *)
Definition is_optimizer_step {F : Type} (c : call F) : bool :=
  match c with Call_optimizer_step => true | _ => false end.

Definition is_zero_grad {F : Type} (c : call F) : bool :=
  match c with Call_model_zero_grad => true | _ => false end.

Definition is_run_model_loss {F : Type} (c : call F) : bool :=
  match c with Call_run_model_loss _ _ => true | _ => false end.

Definition is_rand2 {F : Type} (c : call F) : bool :=
  match c with Call_np_random_rand 2 => true | _ => false end.

Definition is_solve_ivp {F : Type} (c : call F) : bool :=
  match c with Call_solve_ivp _ _ _ => true | _ => false end.

Definition count {F : Type} (p : call F -> bool) (cs : list (call F)) : nat :=
  length (filter p cs).

(** The calls of one pass through the training loop: [zero_grad], then the
    draws of one minibatch, then the student's lines on tensors of shape
    [(K, 20, 2)], [backward], [item], perhaps a [print], and last one
    optimizer step. *)
Definition one_training_iteration {F : Type} `{PyFloat F} (cs : list (call F))
  : Prop :=
  exists draws i t pr,
    cs = [Call_model_zero_grad] ++ draws
         ++ [Call_run_model_loss (Nd3 i) (Nd3 t); Call_loss_backward;
             Call_loss_item] ++ pr ++ [Call_optimizer_step] /\
    shape3 i K 20 2 /\ shape3 t K 20 2 /\
    count is_rand2 draws = 20 /\ count is_solve_ivp draws = 20 /\
    length draws = 40 /\
    (pr = [] \/ exists b x, pr = [Call_py_print b x]).

(* ================================================================== *)
(** * The claim's reading of [get_random_trajectory] *)
(* ================================================================== *)

Section Reading.

Context {F S L : Type} `{PyFloat F} (lib : Library F S L).

Local Open Scope py_scope.
Local Open Scope prog_scope.

(** A random initial state: [-5 + 10*u] per uniform sample [u]. *)
Definition random_initial_state (r : list F) : list F :=
  map (fun u => lit (-5) + lit 10 * u) r.

(** The uniform time grid [np.linspace(0, T, int(T/dt)+1)]. *)
Definition time_grid : result (list F) :=
  np_linspace (lit 0) (lit 2) num_samples.

(** The trajectory as the claim words it: the solution [solve_ivp] returns for
    [van_der_pol_dynamics] over [[0, 2]] from a random initial state,
    each of its two components resampled by [np.interp] on the time grid.
    No array is preallocated and nothing is integrated here. *)
Definition resampled_solver_trajectory : prog F S (list (list F)) :=
  r <- do_call (Call_np_random_rand 2) (np_random_rand lib 2) ;;
  let x0 := random_initial_state r in
  solution <- do_call (Call_solve_ivp (lit 0, lit 2) x0 (lit (1 # 10)))
                (solve_ivp lib van_der_pol_dynamics (lit 0, lit 2) x0
                   (lit (1 # 10))) ;;
  grid <- lift time_grid ;;
  y0 <- lift (index (sol_y solution) 0) ;;
  r0 <- lift (np_interp grid (sol_t solution) y0) ;;
  y1 <- lift (index (sol_y solution) 1) ;;
  r1 <- lift (np_interp grid (sol_t solution) y1) ;;
  ret [r0; r1].

End Reading.

(* ================================================================== *)
(** * The network of [class LSTMNetwork] *)
(* ================================================================== *)

Section LSTMNetwork.

Context {F : Type} `{PyFloat F}.

(** The two squashing functions of the LSTM cell, which no arithmetic of
    [PyFloat] defines. *)
Variables (sigmoid tanh : F -> F).

Local Open Scope py_scope.

Definition dot (u v : list F) : F :=
  fold_left add (map (fun p => fst p * snd p) (combine u v)) zero.

Definition vadd (u v : list F) : list F :=
  map (fun p => fst p + snd p) (combine u v).

Definition vmul (u v : list F) : list F :=
  map (fun p => fst p * snd p) (combine u v).

(** [torch.nn.Linear(in_features, out_features)]: a weight of shape
    [(out_features, in_features)] and a bias of [out_features] numbers. *)
Record nn_Linear : Type := {
  lin_weight : list (list F);
  lin_bias : list F
}.

(** [y = x W^T + b] on one vector. *)
Definition Linear_forward (l : nn_Linear) (x : list F) : list F :=
  map (fun p => dot (fst p) x + snd p) (combine (lin_weight l) (lin_bias l)).

(** [torch.nn.LSTM(input_size, hidden_size)]: the four gates' weights stacked
    in the order input, forget, cell, output. *)
Record nn_LSTM : Type := {
  hidden_size : nat;
  weight_ih : list (list F);
  weight_hh : list (list F);
  bias_ih : list F;
  bias_hh : list F
}.

(** One step of the cell on one example: from the input [x] and the state
    [(h, c)] to the next state. *)
Definition lstm_cell (p : nn_LSTM) (x : list F) (hc : list F * list F)
  : list F * list F :=
  let (h, c) := hc in
  let n := hidden_size p in
  let gates :=
    vadd (Linear_forward {| lin_weight := weight_ih p; lin_bias := bias_ih p |} x)
         (Linear_forward {| lin_weight := weight_hh p; lin_bias := bias_hh p |} h) in
  let i := map sigmoid (firstn n gates) in
  let f := map sigmoid (firstn n (skipn n gates)) in
  let g := map tanh (firstn n (skipn (2 * n) gates)) in
  let o := map sigmoid (firstn n (skipn (3 * n) gates)) in
  let c' := vadd (vmul f c) (vmul i g) in
  (vmul o (map tanh c'), c').

(** The layer over a sequence [input[t][i]] (time, then example): the states
    of all examples advance together, and the output at [t] is the hidden
    state of every example after step [t]. *)
Fixpoint lstm_scan (p : nn_LSTM) (input : list (list (list F)))
  (states : list (list F * list F)) : list (list (list F)) :=
  match input with
  | [] => []
  | xt :: rest =>
      let states' :=
        map (fun xs => lstm_cell p (fst xs) (snd xs)) (combine xt states) in
      map fst states' :: lstm_scan p rest states'
  end.

(** The layer called without an initial state: it starts from zeros. *)
Definition LSTM_forward (p : nn_LSTM) (input : list (list (list F)))
  : list (list (list F)) :=
  let z := repeat zero (hidden_size p) in
  lstm_scan p input (repeat (z, z) (length (hd [] input))).

(** Modelled from the spec: the bodies of [LSTMNetwork.__init__] and
    [LSTMNetwork.forward], which the notebook leaves to the student.  The
    network keeps a [torch.nn.LSTM] layer for the dynamics and a
    [torch.nn.Linear] layer that decodes the state from the hidden
    variables. *)
Record LSTMNetwork : Type := {
  lstm : nn_LSTM;
  linear : nn_Linear
}.

(** Modelled from the spec: [forward] runs the recurrent layer over the input
    sequence and decodes every hidden state with the linear layer. *)
Definition forward (net : LSTMNetwork) (input : list (list (list F)))
  : list (list (list F)) :=
  map (map (Linear_forward (linear net))) (LSTM_forward (lstm net) input).

(** The shapes [LSTMNetwork(input_dim, hidden_dim, target_dim)] gives its
    parameters. *)
Definition Linear_ok (l : nn_Linear) (n_in n_out : nat) : Prop :=
  shape2 (lin_weight l) n_out n_in /\ length (lin_bias l) = n_out.

Definition LSTM_ok (p : nn_LSTM) (n_in n_hidden : nat) : Prop :=
  hidden_size p = n_hidden /\
  shape2 (weight_ih p) (4 * n_hidden)%nat n_in /\
  shape2 (weight_hh p) (4 * n_hidden)%nat n_hidden /\
  length (bias_ih p) = (4 * n_hidden)%nat /\
  length (bias_hh p) = (4 * n_hidden)%nat.

Definition LSTMNetwork_ok (net : LSTMNetwork)
  (input_dim hidden_dim target_dim : nat) : Prop :=
  LSTM_ok (lstm net) input_dim hidden_dim /\
  Linear_ok (linear net) hidden_dim target_dim.

End LSTMNetwork.

(* ================================================================== *)
(** * Test doubles *)
(* ================================================================== *)

(** A small deterministic library to run the notebook on: a counter for the
    random generator, one explicit Euler step for [solve_ivp], and calls
    without effect elsewhere.  [fail_at] makes [np.random.rand] raise once the
    counter reaches it. *)
Section Doubles.

Context {F : Type} `{PyFloat F}.

Local Open Scope py_scope.

Definition demo_rand (fail_at : option nat) (k : nat) (seed : nat)
  : result (list F * nat) :=
  match fail_at with
  | Some n =>
      if Nat.leb n seed then Raise (LibraryError "entropy")
      else Ok (map (fun i => lit (Z.of_nat (((seed + i) * 37) mod 100) # 100))
                 (seq 0 k), (seed + k)%nat)
  | None =>
      Ok (map (fun i => lit (Z.of_nat (((seed + i) * 37) mod 100) # 100))
            (seq 0 k), (seed + k)%nat)
  end.

Definition demo_solve_ivp (f : F -> list F -> result (list F))
  (t_span : F * F) (y0 : list F) (max_step : F) (seed : nat)
  : result (OdeResult F * nat) :=
  let (t0, tf) := t_span in
  match f t0 y0 with
  | Ok d =>
      Ok ({| sol_t := [t0; tf];
             sol_y := map (fun yd => [fst yd; fst yd + (tf - t0) * snd yd])
                          (combine y0 d) |}, seed)
  | Raise e => Raise e
  end.

Definition demo_unit (seed : nat) : result (unit * nat) := Ok (tt, seed).

Definition demo_lib (fail_at : option nat) : Library F nat F := {|
  np_random_rand := demo_rand fail_at;
  solve_ivp := demo_solve_ivp;
  plt_figure := fun _ => demo_unit;
  plt_streamplot := fun _ _ _ _ _ => demo_unit;
  model_zero_grad := demo_unit;
  run_model_loss := fun _ _ s => Ok (lit 1, s);
  loss_backward := fun _ => demo_unit;
  loss_item := fun l s => Ok (l, s);
  py_print := fun _ _ => demo_unit;
  optimizer_step := demo_unit
|}.

Definition demo_world : world F nat := {| w_state := 0; w_calls := [] |}.

End Doubles.

(** A network with one hidden unit on rationals, and the identity in place of
    the squashing functions. *)
Definition demo_net : LSTMNetwork (F := Q) := {|
  lstm := {| hidden_size := 1;
             weight_ih := [[1; 0]; [0; 1]; [1; 1]; [1; -1]]%Q;
             weight_hh := [[1]; [1]; [1]; [1]]%Q;
             bias_ih := [0; 0; 0; 1]%Q;
             bias_hh := [0; 1; 0; 0]%Q |};
  linear := {| lin_weight := [[2]; [3]]%Q; lin_bias := [1; 0]%Q |}
|}.

(** One example of a minibatch, as its two [(K, 2)] arrays: the input starts
    where the trajectory starts and is zero afterwards. *)
Definition example_ok {F : Type} `{PyFloat F} (inp traj : list (list F)) : Prop :=
  shape2 inp K 2 /\ shape2 traj K 2 /\
  nth_error inp 0 = nth_error traj 0 /\
  forall t, 1 <= t < K -> nth_error inp t = Some [zero; zero].

(** An input sequence of three steps for two examples, and the identity in
    place of the squashing functions. *)
Definition demo_input : list (list (list Q)) :=
  [[[1; 2]; [3; 4]]; [[0; 0]; [0; 0]]; [[0; 0]; [0; 0]]]%Q.

Definition demo_squash (x : Q) : Q := x.

(** What [mat_map2] returns on matrices of one shape. *)
Definition zip_cells {F : Type} (f : F -> F -> F) (a b : list (list F))
  : list (list F) :=
  map (fun rr => map (fun cc => f (fst cc) (snd cc)) (combine (fst rr) (snd rr)))
      (combine a b).

(** A state of the recurrent layer whose cell half has the hidden size. *)
Definition state_ok {F : Type} (n_hidden : nat) (hc : list F * list F) : Prop :=
  length (snd hc) = n_hidden.

(* ================================================================== *)
(** * The script cells *)
(* ================================================================== *)

(** The calls only the script cells make: [plt.plot(xs, ys)], [plt.show()],
    and [model(x).detach().numpy()] on the trained model. *)
Record ScriptLibrary (F S : Type) : Type := {
  plt_plot : list F -> list F -> S -> result (unit * S);
  plt_show : S -> result (unit * S);
  model_output : ndarray F -> S -> result (ndarray F * S)
}.

Inductive script_call (F : Type) : Type :=
| Call_plt_plot (xs ys : list F)
| Call_plt_show
| Call_model_output (input : ndarray F).

Arguments Call_plt_show {F}.

(** The script cells run on a process state paired with the record of their
    own calls; the calls of [Library] act on the first component. *)
Definition on_fst {S G X : Type} (f : S -> result (X * S))
  : S * G -> result (X * (S * G)) :=
  fun sg => match f (fst sg) with
            | Ok (x, s') => Ok (x, (s', snd sg))
            | Raise e => Raise e
            end.

Definition with_script_log {F S L : Type} (G : Type) (lib : Library F S L)
  : Library F (S * G) L := {|
  np_random_rand := fun k => on_fst (np_random_rand lib k);
  solve_ivp := fun f span y0 ms => on_fst (solve_ivp lib f span y0 ms);
  plt_figure := fun fs => on_fst (plt_figure lib fs);
  plt_streamplot := fun a b c d n => on_fst (plt_streamplot lib a b c d n);
  model_zero_grad := on_fst (model_zero_grad lib);
  run_model_loss := fun i t => on_fst (run_model_loss lib i t);
  loss_backward := fun l => on_fst (loss_backward lib l);
  loss_item := fun l => on_fst (loss_item lib l);
  py_print := fun b x => on_fst (py_print lib b x);
  optimizer_step := on_fst (optimizer_step lib)
|}.

Definition do_script_call {F S X : Type} (c : script_call F)
  (f : S -> result (X * S)) : prog F (S * list (script_call F)) X :=
  fun w => match f (fst (w_state w)) with
           | Ok (x, s') =>
               Ok (x, {| w_state := (s', snd (w_state w) ++ [c]);
                         w_calls := w_calls w |})
           | Raise e => Raise e
           end.

(** [a.shape[1]]: an IndexError on a one-dimensional array.  (An array with
    no first-axis entry has no second axis in this representation; its
    [shape[1]] is read as 0.) *)
Definition shape_1 {F : Type} (a : ndarray F) : result nat :=
  match a with
  | Nd1 _ => Raise IndexError
  | Nd2 m => Ok (length (hd [] m))
  | Nd3 c => Ok (length (hd [] c))
  end.

(** [a[:, i, :]]: an IndexError with fewer than three dimensions and past the
    end of the second axis. *)
Definition slice_axis1 {F : Type} (a : ndarray F) (i : nat)
  : result (list (list F)) :=
  match a with
  | Nd3 c => rmap (fun m => index m i) c
  | _ => Raise IndexError
  end.

(** [x[t, i, e]]. *)
Definition index3e {A : Type} (x : list (list (list A))) (t i e : nat)
  : result A :=
  rbind (index3 x t i) (fun v => index v e).

Section Script.

Context {F S L : Type} `{PyFloat F}.
Context (lib : Library F S L) (script : ScriptLibrary F S).

Local Open Scope py_scope.
Local Open Scope prog_scope.

Let lib' : Library F (S * list (script_call F)) L :=
  with_script_log (list (script_call F)) lib.

(** The first cell after its definition: [plot_flow_field()] and
    [plt.show()]. *)
Definition flow_field_cell : prog F (S * list (script_call F)) unit :=
  plot_flow_field lib' ;;
  do_script_call Call_plt_show (plt_show script).


(** The body of the loop of the last cell: example [i] of [output], its
    first state variable against its second. *)
Definition plot_example (output : ndarray F) (i : nat) (_ : unit)
  : prog F (S * list (script_call F)) unit :=
  trajectory <- lift (slice_axis1 output i) ;;
  xs <- lift (get_col trajectory 0) ;;
  ys <- lift (get_col trajectory 1) ;;
  do_script_call (Call_plt_plot xs ys) (plt_plot script xs ys).

(** [for i in range(output.shape[1]): ...]. *)
Definition plot_examples (output : ndarray F)
  : prog F (S * list (script_call F)) unit :=
  n <- lift (shape_1 output) ;;
  for_range n (plot_example output) tt.


End Script.

(** The curve the last cell draws for example [i] of an output of three
    dimensions: per step, the first and the second decoded state variable. *)
Definition example_curve {F : Type} `{PyFloat F} (out : list (list (list F)))
  (i : nat) : script_call F :=
  Call_plt_plot (map (fun m => nth 0 (nth i m []) zero) out)
                (map (fun m => nth 1 (nth i m []) zero) out).

(** The plotting calls return. *)
Definition plot_calls_ok {F S L : Type} (lib : Library F S L)
  (script : ScriptLibrary F S) : Prop :=
  (forall fs s, exists s', plt_figure lib fs s = Ok (tt, s')) /\
  (forall a b c d n s, exists s', plt_streamplot lib a b c d n s = Ok (tt, s')) /\
  (forall xs ys s, exists s', plt_plot script xs ys s = Ok (tt, s')) /\
  (forall s, exists s', plt_show script s = Ok (tt, s')).

(* ================================================================== *)
(** * Readings used in the further properties *)
(* ================================================================== *)

(** [n] trajectories drawn one after the other. *)
Definition draw_trajectories {F S L : Type} `{PyFloat F} (lib : Library F S L)
  (n : nat) : prog F S (list (list (list F))) :=
  for_range n (fun _ acc => bind (get_random_trajectory lib)
                              (fun t => ret (acc ++ [t]))) [].

(** A row with everything after its first entry set to zero. *)
Definition keep_first {F : Type} `{PyFloat F} (row : list F) : list F :=
  match row with
  | [] => []
  | a :: r => a :: map (fun _ => zero) r
  end.

(** The batch numbers printed, in the order of the calls. *)
Definition print_batches {F : Type} (cs : list (call F)) : list Z :=
  flat_map (fun c => match c with
                     | Call_py_print b _ => [b]
                     | _ => []
                     end) cs.

(** The values printed, in the order of the calls. *)
Definition printed_losses {F : Type} (cs : list (call F)) : list F :=
  flat_map (fun c => match c with
                     | Call_py_print _ x => [x]
                     | _ => []
                     end) cs.

(** A test double for the script calls: plotting has no effect and the model
    returns its input. *)
Definition demo_script {F : Type} : ScriptLibrary F nat := {|
  plt_plot := fun _ _ s => Ok (tt, s);
  plt_show := fun s => Ok (tt, s);
  model_output := fun x s => Ok (x, s)
|}.

Definition demo_script_world {F : Type} : world F (nat * list (script_call F)) :=
  {| w_state := (0, []); w_calls := [] |}.


(* ================================================================== *)
(** * Proofs *)
(* ================================================================== *)

(** ** Runs on concrete inputs *)

Example van_der_pol_dynamics_at_1_2 :
  van_der_pol_dynamics 0%float [1%float; 2%float] = Ok [2%float; (-1)%float].
Proof. reflexivity. Qed.

Example van_der_pol_dynamics_at_2_3 :
  van_der_pol_dynamics 0%Q [2; 3]%Q = Ok [3; -2.9]%Q.
Proof. reflexivity. Qed.

Example van_der_pol_dynamics_short_state :
  van_der_pol_dynamics 0%Q [2%Q] = Raise IndexError.
Proof. reflexivity. Qed.

Example np_interp_run :
  np_interp [1 # 2; 3; -1; 1]%Q [0; 1; 2]%Q [10; 20; 40]%Q
  = Ok [30 # 2; 40; 10; 20]%Q.
Proof. reflexivity. Qed.

Example np_interp_knots_mismatch :
  np_interp [1]%Q [0; 1; 2]%Q [10; 20]%Q = Raise ValueError.
Proof. reflexivity. Qed.

Example np_linspace_run :
  rbind (np_linspace 0%Q 2%Q 5) (fun l => Ok (map Qred l))
  = Ok [0; 1 # 2; 1; 3 # 2; 2]%Q.
Proof. reflexivity. Qed.

Example np_meshgrid_run :
  np_meshgrid [1; 2; 3]%Q [7; 8]%Q
  = ([[1; 2; 3]; [1; 2; 3]], [[7; 7; 7]; [8; 8; 8]])%Q.
Proof. reflexivity. Qed.

Example first_column_run :
  set_col (np_zeros_like [[1; 2; 3]; [4; 5; 6]]%Q) 0 [1; 4]%Q
  = Ok [[1; 0; 0]; [4; 0; 0]]%Q.
Proof. reflexivity. Qed.

Example set_row_wrong_length :
  set_row (np_zeros 2 3) 1 [1; 4]%Q = Raise ValueError.
Proof. reflexivity. Qed.

Example swapaxes_run :
  rbind (np_array [[[1; 2]; [3; 4]; [5; 6]]; [[7; 8]; [9; 10]; [11; 12]]]%Q)
        swapaxes01
  = Ok (Nd3 [[[1; 2]; [7; 8]]; [[3; 4]; [9; 10]]; [[5; 6]; [11; 12]]]%Q).
Proof. reflexivity. Qed.

Example num_samples_binary64 : num_samples (F := float) = 21%Z.
Proof. reflexivity. Qed.

Example get_random_trajectory_calls :
  match get_random_trajectory (F := Q) (demo_lib None) demo_world with
  | Ok (_, w) => map (@is_rand2 Q) (w_calls w) = [true; false] /\
                 map (@is_solve_ivp Q) (w_calls w) = [false; true]
  | Raise _ => False
  end.
Proof. vm_compute. split; reflexivity. Qed.

(** ** The error monad *)

Lemma rbind_ok {X Y : Type} (r : result X) (k : X -> result Y) (x : X) :
  r = Ok x -> rbind r k = k x.
Proof. now intros ->. Qed.

(** ** Indexing and assignment *)

Lemma index_ok {A : Type} (a : list A) (i : nat) (x : A) :
  nth_error a i = Some x -> index a i = Ok x.
Proof. unfold index. now intros ->. Qed.

Lemma rmap_ok {A B : Type} (f : A -> result B) (g : A -> B) (l : list A) :
  Forall (fun x => f x = Ok (g x)) l -> rmap f l = Ok (map g l).
Proof.
  induction 1 as [|x l Hx _ IH]; simpl; [reflexivity|].
  now rewrite Hx, IH.
Qed.

Lemma zip_exact_ok {A B : Type} (l : list A) (l' : list B) :
  length l = length l' -> zip_exact l l' = Ok (combine l l').
Proof.
  revert l'. induction l as [|x l IH]; intros [|y l'] E; simpl in *;
    try discriminate; [reflexivity|].
  rewrite IH by lia. reflexivity.
Qed.

Lemma broadcast_to_same {A : Type} (n : nat) (v : list A) :
  length v = n -> broadcast_to n v = Ok v.
Proof. unfold broadcast_to. intros ->. now rewrite Nat.eqb_refl. Qed.

Lemma set_last_length {A : Type} (y : list A) (x : A) :
  length (set_last y x) = length y.
Proof.
  destruct y as [|a y]; [reflexivity|].
  unfold set_last. rewrite length_app. simpl length at 2.
  assert (E : a :: y <> []) by discriminate.
  pose proof (app_removelast_last a E) as R.
  apply (f_equal (@length A)) in R. rewrite length_app in R. simpl in R. simpl. lia.
Qed.

(** ** numpy *)

Section NumpyFacts.

Context {F : Type} `{PyFloat F}.

Lemma np_linspace_ok (start stop : F) (num : Z) :
  (0 <= num)%Z ->
  exists y, np_linspace start stop num = Ok y /\ length y = Z.to_nat num.
Proof.
  intros Hn. unfold np_linspace.
  destruct (Z.ltb_spec num 0); [lia|].
  eexists. split; [reflexivity|].
  assert (E : forall (g : F -> F) (l : list F), length (map g l) = length l)
    by (intros; apply length_map).
  destruct (1 <? num)%Z; [rewrite set_last_length|]; rewrite E;
    destruct (0 <? num - 1)%Z;
    try (destruct (eqb _ _)); now rewrite E, length_map, length_seq.
Qed.

Lemma np_linspace_raise (start stop : F) (num : Z) :
  (num < 0)%Z -> np_linspace start stop num = Raise ValueError.
Proof.
  intros Hn. unfold np_linspace. destruct (Z.ltb_spec num 0); [reflexivity|lia].
Qed.

Lemma np_interp_ok (x xp fp : list F) :
  xp <> [] -> length xp = length fp ->
  np_interp x xp fp = Ok (map (interp_at (combine xp fp)) x).
Proof.
  intros Hne Hlen. unfold np_interp. destruct xp; [congruence|].
  now rewrite zip_exact_ok.
Qed.

Lemma np_interp_length (x xp fp r : list F) :
  np_interp x xp fp = Ok r -> length r = length x.
Proof.
  unfold np_interp. destruct xp; [discriminate|].
  destruct (zip_exact (f :: xp) fp); simpl; [|discriminate].
  intros E. injection E as <-. apply length_map.
Qed.

Lemma set_row_zeros_0 (k : nat) (r0 : list F) :
  length r0 = k ->
  set_row (np_zeros 2 k) 0 r0 = Ok [r0; repeat zero k].
Proof.
  intros E. unfold set_row, np_zeros. simpl.
  rewrite broadcast_to_same by (now rewrite repeat_length). reflexivity.
Qed.

Lemma set_row_1 (a b r1 : list F) :
  length r1 = length b -> set_row [a; b] 1 r1 = Ok [a; r1].
Proof.
  intros E. unfold set_row. simpl. now rewrite broadcast_to_same.
Qed.

End NumpyFacts.

(** ** The program monad *)

Section ProgFacts.

Context {F S : Type}.

Lemma bind_ok {X Y : Type} (m : prog F S X) (k : X -> prog F S Y) w x w' :
  m w = Ok (x, w') -> bind m k w = k x w'.
Proof. unfold bind. now intros ->. Qed.

Lemma bind_raise {X Y : Type} (m : prog F S X) (k : X -> prog F S Y) w e :
  m w = Raise e -> bind m k w = Raise e.
Proof. unfold bind. now intros ->. Qed.

Lemma lift_ok {X : Type} (r : result X) (x : X) (w : world F S) :
  r = Ok x -> lift r w = Ok (x, w).
Proof. now intros ->. Qed.

Lemma do_call_ok {X : Type} (c : call F) (f : S -> result (X * S)) w x s' :
  f (w_state w) = Ok (x, s') ->
  do_call c f w = Ok (x, {| w_state := s'; w_calls := w_calls w ++ [c] |}).
Proof. unfold do_call. now intros ->. Qed.

Lemma do_call_raise {X : Type} (c : call F) (f : S -> result (X * S)) w e :
  f (w_state w) = Raise e -> do_call c f w = Raise e.
Proof. unfold do_call. now intros ->. Qed.

Lemma for_each_app {A I : Type} (body : I -> A -> prog F S A) (l l' : list I)
  (acc : A) (w : world F S) :
  for_each body (l ++ l') acc w = bind (for_each body l acc) (for_each body l') w.
Proof.
  revert acc w. induction l as [|i l IH]; intros acc w; simpl.
  - reflexivity.
  - unfold bind. destruct (body i acc w) as [[a w']|e]; [|reflexivity].
    rewrite IH. reflexivity.
Qed.

Lemma for_range_S {A : Type} (n : nat) (body : nat -> A -> prog F S A)
  (acc : A) (w : world F S) :
  for_range (Datatypes.S n) body acc w = bind (for_range n body acc) (body n) w.
Proof.
  unfold for_range. rewrite seq_S, for_each_app. simpl.
  unfold bind. destruct (for_each body (seq 0 n) acc w) as [[a w']|e]; [|reflexivity].
  destruct (body n a w') as [[a' w'']|e]; reflexivity.
Qed.

(** A loop whose pass [k] raises after [k] passes returned raises the same
    exception. *)
Lemma for_range_raise {A : Type} (n k : nat) (body : nat -> A -> prog F S A)
  (acc a : A) (w w' : world F S) (e : exn) :
  k < n ->
  for_range k body acc w = Ok (a, w') ->
  body k a w' = Raise e ->
  for_range n body acc w = Raise e.
Proof.
  intros Hk Hpre Hbody. unfold for_range in *.
  replace n with (k + (Datatypes.S (n - k - 1))) by lia.
  rewrite seq_app, for_each_app. erewrite bind_ok by exact Hpre.
  simpl. now apply bind_raise.
Qed.

End ProgFacts.

(** Running a statement forward over a call that returns, and stopping at
    one that raises. *)
Ltac step_ok H :=
  erewrite bind_ok by
    first [ exact H | apply do_call_ok; exact H | apply lift_ok; exact H ];
  cbv beta iota zeta.

Ltac stop_raise H :=
  apply bind_raise; first [ exact H | apply do_call_raise; exact H ].

(** ** [get_random_trajectory] *)

Section TrajectoryFacts.

Context {F S L : Type} `{PyFloat F} (lib : Library F S L).

Lemma K_length_grid (grid : list F) :
  time_grid = Ok grid -> length grid = K.
Proof.
  unfold time_grid, K. intros E.
  destruct (Z.ltb_spec num_samples 0) as [Hneg|Hpos].
  - rewrite np_linspace_raise in E by assumption. discriminate.
  - destruct (np_linspace_ok (lit 0) (lit 2) Hpos) as (y & Ey & Hy).
    rewrite Ey in E. now injection E as <-.
Qed.

Lemma time_grid_ok : (0 <= num_samples)%Z -> exists grid, time_grid = Ok grid.
Proof.
  intros Hpos. destruct (np_linspace_ok (lit 0) (lit 2) Hpos) as (y & Ey & _).
  now exists y.
Qed.

Lemma get_random_trajectory_reading (w : world F S) :
  get_random_trajectory lib w = resampled_solver_trajectory lib w.
Proof.
  unfold get_random_trajectory, resampled_solver_trajectory, time_grid,
    random_initial_state, num_samples.
  unfold bind.
  destruct (do_call _ _ w) as [[r w1]|e]; [|reflexivity].
  destruct (do_call _ _ w1) as [[sol w2]|e]; [|reflexivity].
  unfold lift.
  destruct (np_linspace _ _ _) as [times|e]; [|reflexivity].
  destruct (index (sol_y sol) 0) as [y0|e]; [|reflexivity].
  destruct (np_interp times (sol_t sol) y0) as [r0|e] eqn:E0; [|reflexivity].
  rewrite set_row_zeros_0 by (eapply np_interp_length; eauto).
  destruct (index (sol_y sol) 1) as [y1|e]; [|reflexivity].
  destruct (np_interp times (sol_t sol) y1) as [r1|e] eqn:E1; [|reflexivity].
  rewrite set_row_1; [reflexivity|].
  rewrite repeat_length. eapply np_interp_length; eauto.
Qed.

(** When its two library calls return and the solution has the documented
    shape, [get_random_trajectory] returns a [(2, K)] array and has made
    exactly these two calls. *)
Lemma get_random_trajectory_returns (w : world F S) r s1 sol s2 :
  (0 <= num_samples)%Z ->
  np_random_rand lib 2 (w_state w) = Ok (r, s1) ->
  solve_ivp lib van_der_pol_dynamics (lit 0, lit 2) (random_initial_state r)
    (lit (1 # 10)) s1 = Ok (sol, s2) ->
  length r = 2 ->
  solution_ok (random_initial_state r) sol ->
  exists traj,
    get_random_trajectory lib w =
      Ok (traj, {| w_state := s2;
                   w_calls := w_calls w ++
                     [Call_np_random_rand 2;
                      Call_solve_ivp (lit 0, lit 2) (random_initial_state r)
                        (lit (1 # 10))] |}) /\
    shape2 traj 2 K.
Proof.
  intros Hpos Hrand Hsolve Hr [Hne [Hrows Hcols]].
  unfold random_initial_state in Hrows at 1. rewrite length_map, Hr in Hrows.
  destruct (sol_y sol) as [|y0 [|y1 [|]]] eqn:Ey; try discriminate.
  apply Forall_cons_iff in Hcols as [L0 Hcols].
  apply Forall_cons_iff in Hcols as [L1 _].
  destruct (time_grid_ok Hpos) as (grid & Eg).
  pose proof (K_length_grid Eg) as HK.
  rewrite get_random_trajectory_reading. unfold resampled_solver_trajectory.
  erewrite bind_ok by (apply do_call_ok; exact Hrand). cbv zeta.
  erewrite bind_ok by (apply do_call_ok; simpl; exact Hsolve).
  erewrite bind_ok by (apply lift_ok; exact Eg).
  rewrite Ey. simpl index.
  assert (Hne' : sol_t sol <> []) by exact Hne.
  erewrite bind_ok by (apply lift_ok; reflexivity).
  erewrite bind_ok by (apply lift_ok; apply np_interp_ok; [exact Hne'|now rewrite L0]).
  erewrite bind_ok by (apply lift_ok; reflexivity).
  erewrite bind_ok by (apply lift_ok; apply np_interp_ok; [exact Hne'|now rewrite L1]).
  eexists. split.
  - unfold ret. simpl. rewrite <- app_assoc. reflexivity.
  - split; [reflexivity|].
    repeat constructor; now rewrite length_map.
Qed.

End TrajectoryFacts.

(** ** Transposition *)

Lemma nth_error_map_seq {A : Type} (f : nat -> A) (n j : nat) :
  j < n -> nth_error (map f (seq 0 n)) j = Some (f j).
Proof.
  intros Hj. rewrite nth_error_map, nth_error_seq.
  destruct (Nat.ltb_spec j n); [reflexivity|lia].
Qed.

Lemma transpose_shape {A : Type} (d : A) (m : list (list A)) (r c : nat) :
  shape2 m r c -> 1 <= r -> shape2 (transpose d m) c r.
Proof.
  intros [Hr Hc] Hpos. destruct m as [|row m]; [simpl in Hr; lia|].
  unfold transpose. split.
  - rewrite length_map, length_seq. now apply Forall_inv in Hc.
  - apply Forall_forall. intros x Hx. apply in_map_iff in Hx as (j & <- & _).
    now rewrite length_map.
Qed.

Lemma transpose_nth {A : Type} (d : A) (m : list (list A)) (r c j : nat) :
  shape2 m r c -> 1 <= r -> j < c ->
  nth_error (transpose d m) j = Some (map (fun row => nth j row d) m).
Proof.
  intros [Hr Hc] Hpos Hj. destruct m as [|row m]; [simpl in Hr; lia|].
  unfold transpose. apply Forall_inv in Hc.
  rewrite nth_error_map_seq by lia. reflexivity.
Qed.

Lemma nth_error_lt {A : Type} (l : list A) (j : nat) (x : A) :
  nth_error l j = Some x -> j < length l.
Proof. intros E. apply nth_error_Some. congruence. Qed.

Lemma nth_const_map {A B : Type} (z : B) (l : list A) (j : nat) :
  nth j (map (fun _ => z) l) z = z.
Proof.
  revert j. induction l as [|x l IH]; intros [|j]; simpl; auto.
Qed.

(** ** [get_minibatch] *)

Section MinibatchFacts.

Context {F S L : Type} `{PyFloat F} (lib : Library F S L).

Lemma K_pos_num_samples : 1 <= K (F := F) -> (0 <= num_samples (F := F))%Z.
Proof. unfold K. lia. Qed.

(** The array work of one pass on a [(2, K)] trajectory. *)
Lemma example_arrays (traj : list (list F)) :
  1 <= K (F := F) -> shape2 traj 2 K ->
  exists x0 input,
    get_col traj 0 = Ok x0 /\
    set_col (np_zeros_like traj) 0 x0 = Ok input /\
    example_ok (transpose zero input) (transpose zero traj).
Proof.
  intros HK [Hr Hc].
  destruct traj as [|r0 [|r1 [|]]]; try discriminate.
  apply Forall_cons_iff in Hc as [L0 Hc]. apply Forall_cons_iff in Hc as [L1 _].
  destruct r0 as [|a r0]; [simpl in L0; lia|].
  destruct r1 as [|b r1]; [simpl in L1; lia|].
  exists [a; b]. eexists. split; [reflexivity|]. split; [reflexivity|].
  simpl in L0, L1.
  assert (S0 : shape2 [a :: map (fun _ : F => zero) r0; b :: map (fun _ : F => zero) r1] 2 K).
  { split; [reflexivity|]. repeat constructor; simpl; now rewrite length_map. }
  assert (S1 : shape2 [a :: r0; b :: r1] 2 K).
  { split; [reflexivity|]. repeat constructor; assumption. }
  split; [apply transpose_shape; [exact S0|lia]|].
  split; [apply transpose_shape; [exact S1|lia]|].
  split.
  - rewrite (transpose_nth zero S0) by lia. rewrite (transpose_nth zero S1) by lia.
    reflexivity.
  - intros t [Ht1 Ht2]. rewrite (transpose_nth zero S0) by lia.
    destruct t as [|t]; [lia|]. simpl. now rewrite !nth_const_map.
Qed.

Hypothesis lib_ok : numeric_calls_ok lib.
Hypothesis K_pos : 1 <= K (F := F).

Lemma get_random_trajectory_total (w : world F S) :
  exists traj w' c1 c2,
    get_random_trajectory lib w = Ok (traj, w') /\
    shape2 traj 2 K /\
    w_calls w' = w_calls w ++ [c1; c2] /\
    is_rand2 c1 = true /\ is_solve_ivp c2 = true.
Proof.
  destruct lib_ok as [Hrand Hsolve].
  destruct (Hrand 2 (w_state w)) as (r & s1 & Er & Lr).
  assert (Lx : length (random_initial_state r) = 2)
    by (unfold random_initial_state; now rewrite length_map).
  destruct (Hsolve (lit 0, lit 2) (random_initial_state r) (lit (1 # 10)) s1 Lx)
    as (sol & s2 & Es & Hsol).
  destruct (get_random_trajectory_returns lib w (K_pos_num_samples K_pos)
              Er Es Lr Hsol) as (traj & E & Hshape).
  exists traj. eexists. do 2 eexists. split; [exact E|].
  split; [exact Hshape|]. simpl. auto.
Qed.

Lemma get_minibatch_body_returns (i : nat) inputs trajectories (w : world F S) :
  exists inp traj w' c1 c2,
    get_minibatch_body lib i (inputs, trajectories) w
      = Ok ((inputs ++ [inp], trajectories ++ [traj]), w') /\
    example_ok inp traj /\
    w_calls w' = w_calls w ++ [c1; c2] /\
    is_rand2 c1 = true /\ is_solve_ivp c2 = true.
Proof.
  destruct (get_random_trajectory_total w) as (traj & w' & c1 & c2 & E & Hs & Hc & H1 & H2).
  destruct (example_arrays K_pos Hs) as (x0 & input & Ex & Ei & Hex).
  exists (transpose zero input), (transpose zero traj), w', c1, c2.
  split; [|auto].
  unfold get_minibatch_body.
  erewrite bind_ok by exact E.
  erewrite bind_ok by (apply lift_ok; exact Ex).
  erewrite bind_ok by (apply lift_ok; exact Ei).
  reflexivity.
Qed.

(** The loop of [get_minibatch] after [n] passes. *)
Lemma get_minibatch_loop_returns (n : nat) (w : world F S) :
  exists inputs trajectories w' draws,
    for_range n (get_minibatch_body lib) ([], []) w
      = Ok ((inputs, trajectories), w') /\
    length inputs = n /\ Forall2 example_ok inputs trajectories /\
    w_calls w' = w_calls w ++ draws /\
    length draws = 2 * n /\
    count is_rand2 draws = n /\ count is_solve_ivp draws = n.
Proof.
  induction n as [|n IH].
  - exists [], [], w, []. simpl. rewrite app_nil_r. repeat split; constructor.
  - destruct IH as (inputs & trajectories & w1 & draws & E & Hlen & Hall & Hc & Hd & Hr & Hs).
    destruct (get_minibatch_body_returns n inputs trajectories w1)
      as (inp & traj & w2 & c1 & c2 & Eb & Hex & Hc2 & H1 & H2).
    exists (inputs ++ [inp]), (trajectories ++ [traj]), w2, (draws ++ [c1; c2]).
    split; [rewrite for_range_S; erewrite bind_ok by exact E; exact Eb|].
    split; [rewrite length_app; simpl; lia|].
    split; [apply Forall2_app; [exact Hall|constructor; [exact Hex|constructor]]|].
    split; [rewrite Hc2, Hc, app_assoc; reflexivity|].
    split; [rewrite length_app; simpl; lia|].
    destruct c1 as [[|[|[|k]]]| | | | | | | | |]; try discriminate.
    destruct c2; try discriminate.
    unfold count in *. rewrite !filter_app, !length_app. simpl. lia.
Qed.

End MinibatchFacts.

Section TensorFacts.

Context {F : Type} `{PyFloat F}.

Lemma same_shape_ok (a b : list (list F)) (r c : nat) :
  shape2 a r c -> shape2 b r c -> same_shape a b = true.
Proof.
  intros [Ha Hca] [Hb Hcb]. unfold same_shape.
  rewrite Ha, Hb, Nat.eqb_refl. simpl.
  apply forallb_forall. intros x Hx. apply forallb_forall. intros y Hy.
  rewrite Forall_forall in Hca, Hcb. rewrite (Hca x Hx), (Hcb y Hy).
  apply Nat.eqb_refl.
Qed.

Lemma np_array_ok (l : list (list (list F))) (r c : nat) :
  l <> [] -> Forall (fun m => shape2 m r c) l -> np_array l = Ok (Nd3 l).
Proof.
  intros Hne Hall. destruct l as [|a l]; [congruence|].
  unfold np_array. apply Forall_cons_iff in Hall as [Ha Hl].
  replace (forallb (same_shape a) l) with true; [reflexivity|].
  symmetry. apply forallb_forall. intros b Hb.
  rewrite Forall_forall in Hl. eapply same_shape_ok; eauto.
Qed.

(** [torch.Tensor(np.array(l).swapaxes(0, 1))] on [n >= 1] arrays of shape
    [(k, c)]: the shape is [(k, n, c)] and cell [(t, i)] is row [t] of the
    [i]-th array, rounded. *)
Lemma stacked_tensor (l : list (list (list F))) (n k c : nat) :
  1 <= n -> length l = n -> Forall (fun m => shape2 m k c) l ->
  exists x,
    rbind (np_array l) swapaxes01 = Ok (Nd3 (F := F) x) /\
    torch_Tensor (Nd3 x) = Nd3 (map (map (map float32)) x) /\
    shape3 (map (map (map float32)) x) k n c /\
    forall t i m row,
      nth_error l i = Some m -> nth_error m t = Some row ->
      index3 (map (map (map float32)) x) t i = Ok (map float32 row).
Proof.
  intros Hn Hlen Hall.
  assert (Hne : l <> []) by (destruct l; [simpl in Hlen; lia|discriminate]).
  exists (transpose [] l).
  rewrite (np_array_ok Hne Hall). split; [reflexivity|]. split; [reflexivity|].
  assert (Hcells : shape2 l n k).
  { split; [exact Hlen|]. eapply Forall_impl; [|exact Hall]. now intros m [Hm _]. }
  split.
  - split.
    + rewrite length_map. now destruct (transpose_shape [] Hcells Hn).
    + apply Forall_forall. intros x Hx.
      apply in_map_iff in Hx as (row & <- & Hrow).
      apply In_nth_error in Hrow as (t & Ht).
      assert (Htk : t < k).
      { apply nth_error_lt in Ht.
        now destruct (transpose_shape [] Hcells Hn) as [<- _]. }
      rewrite (transpose_nth [] Hcells Hn Htk) in Ht. injection Ht as <-.
      split; [now rewrite !length_map|].
      apply Forall_forall. intros v Hv.
      apply in_map_iff in Hv as (u & <- & Hu).
      apply in_map_iff in Hu as (m & <- & Hm).
      rewrite length_map. rewrite Forall_forall in Hall.
      destruct (Hall m Hm) as [Hmk Hmc]. rewrite Forall_forall in Hmc.
      apply Hmc, nth_In. lia.
  - intros t i m row Hi Ht.
    assert (Htk : t < k).
    { apply nth_error_lt in Ht. rewrite Forall_forall in Hall.
      apply nth_error_In in Hi. now destruct (Hall m Hi) as [<- _]. }
    unfold index3.
    erewrite rbind_ok.
    2:{ apply index_ok. rewrite nth_error_map.
        rewrite (transpose_nth [] Hcells Hn Htk). reflexivity. }
    apply index_ok. rewrite !nth_error_map, Hi. simpl.
    now rewrite (nth_error_nth _ _ _ Ht).
Qed.

End TensorFacts.

Lemma Forall2_nth_error_l {A B : Type} (R : A -> B -> Prop) (l : list A)
  (l' : list B) (i : nat) (x : A) :
  Forall2 R l l' -> nth_error l i = Some x ->
  exists y, nth_error l' i = Some y /\ R x y.
Proof.
  intros Hall. revert i. induction Hall as [|a b l l' Hab _ IH]; intros [|i] E;
    simpl in *; try discriminate.
  - injection E as <-. eauto.
  - now apply IH.
Qed.

Lemma Forall2_Forall_l {A B : Type} (R : A -> B -> Prop) (P : A -> Prop)
  (l : list A) (l' : list B) :
  (forall x y, R x y -> P x) -> Forall2 R l l' -> Forall P l.
Proof. intros HP. induction 1; constructor; eauto. Qed.

Lemma Forall2_Forall_r {A B : Type} (R : A -> B -> Prop) (P : B -> Prop)
  (l : list A) (l' : list B) :
  (forall x y, R x y -> P y) -> Forall2 R l l' -> Forall P l'.
Proof. intros HP. induction 1; constructor; eauto. Qed.

Section MinibatchResult.

Context {F S L : Type} `{PyFloat F} (lib : Library F S L).

Hypothesis lib_ok : numeric_calls_ok lib.
Hypothesis K_pos : 1 <= K (F := F).

Lemma get_minibatch_returns (n : nat) (w : world F S) :
  1 <= n ->
  exists inputs trajectories w' draws,
    get_minibatch lib n w = Ok ((Nd3 inputs, Nd3 trajectories), w') /\
    shape3 inputs K n 2 /\ shape3 trajectories K n 2 /\
    (forall i, i < n ->
       (exists v, index3 inputs 0 i = Ok v /\ index3 trajectories 0 i = Ok v) /\
       (forall t, 1 <= t < K ->
          index3 inputs t i = Ok [float32 zero; float32 zero])) /\
    w_calls w' = w_calls w ++ draws /\
    length draws = 2 * n /\
    count is_rand2 draws = n /\ count is_solve_ivp draws = n.
Proof.
  intros Hn.
  destruct (get_minibatch_loop_returns lib_ok K_pos n w)
    as (ins & trs & w' & draws & E & Hlen & Hall & Hc & Hd & Hr & Hs).
  assert (Hlen' : length trs = n) by (now rewrite <- (Forall2_length Hall)).
  assert (Hins : Forall (fun m => shape2 m K 2) ins).
  { eapply Forall2_Forall_l; [|exact Hall]. now intros x y [Hx _]. }
  assert (Htrs : Forall (fun m => shape2 m K 2) trs).
  { eapply Forall2_Forall_r; [|exact Hall]. now intros x y (_ & Hy & _). }
  destruct (stacked_tensor Hn Hlen Hins) as (I & EI & TI & SI & CI).
  destruct (stacked_tensor Hn Hlen' Htrs) as (T & ET & TT & ST & CT).
  exists (map (map (map float32)) I), (map (map (map float32)) T), w', draws.
  split.
  { unfold get_minibatch. erewrite bind_ok by exact E. cbv beta iota.
    erewrite bind_ok by (apply lift_ok; exact EI).
    erewrite bind_ok by (apply lift_ok; exact ET).
    unfold ret. now rewrite TI, TT. }
  split; [exact SI|]. split; [exact ST|]. split; [|auto].
  intros i Hi.
  destruct (nth_error ins i) as [inp|] eqn:Einp;
    [|apply nth_error_None in Einp; lia].
  destruct (Forall2_nth_error_l i Hall Einp) as (traj & Etraj & Hex).
  destruct Hex as ([Hi1 Hi2] & [Ht1 Ht2] & H0 & Hz).
  split.
  - destruct (nth_error inp 0) as [row|] eqn:Erow;
      [|apply nth_error_None in Erow; lia].
    exists (map float32 row). split.
    + exact (CI 0 i inp row Einp Erow).
    + symmetry in H0. exact (CT 0 i traj row Etraj H0).
  - intros t Ht. exact (CI t i inp _ Einp (Hz t Ht)).
Qed.

End MinibatchResult.

(** ** The training loop *)

Section TrainingFacts.

Context {F S L : Type} `{PyFloat F} (lib : Library F S L).

Hypothesis lib_ok : numeric_calls_ok lib.
Hypothesis torch_ok : training_calls_ok lib.
Hypothesis K_pos : 1 <= K (F := F).

Lemma training_body_returns (sample : nat) (running_loss : F) (w : world F S) :
  exists running_loss' w' cs,
    training_body lib sample running_loss w = Ok (running_loss', w') /\
    w_calls w' = w_calls w ++ cs /\
    one_training_iteration cs.
Proof.
  destruct torch_ok as (Hzero & Hrun & Hback & Hitem & Hprint & Hstep).
  unfold training_body.
  destruct (Hzero (w_state w)) as (s1 & E1).
  erewrite bind_ok by (apply do_call_ok; exact E1). cbv beta.
  match goal with |- context [bind (get_minibatch lib 20) ?k ?w1] =>
    destruct (get_minibatch_returns lib_ok K_pos (n := 20) w1 ltac:(lia))
      as (ins & trs & w2 & draws & E2 & SI & ST & _ & C2 & Ld & Cr & Cs)
  end.
  erewrite bind_ok by exact E2. cbv beta iota.
  destruct (Hrun (Nd3 ins) (Nd3 trs) (w_state w2)) as (l & s3 & E3).
  erewrite bind_ok by (apply do_call_ok; exact E3).
  destruct (Hback l s3) as (s4 & E4).
  erewrite bind_ok by (apply do_call_ok; exact E4).
  destruct (Hitem l s4) as (x & s5 & E5).
  erewrite bind_ok by (apply do_call_ok; exact E5).
  cbv zeta.
  set (rl := add (mul (lit (9 # 10)) running_loss) (mul (lit (1 # 10)) x)).
  destruct (Hprint (Z.of_nat sample + 1)%Z rl s5) as (s6 & E6).
  destruct (Nat.eqb (sample mod 50) 49).
  - erewrite bind_ok by (apply do_call_ok; exact E6).
    destruct (Hstep s6) as (s7 & E7).
    erewrite bind_ok by (apply do_call_ok; exact E7).
    do 3 eexists. split; [reflexivity|]. simpl. rewrite C2. simpl.
    split.
    2:{ exists draws, ins, trs, [Call_py_print (Z.of_nat sample + 1) rl].
        split; [reflexivity|]. split; [exact SI|]. split; [exact ST|].
        split; [exact Cr|]. split; [exact Cs|]. split; [exact Ld|].
        right. eauto. }
    rewrite <- !app_assoc. reflexivity.
  - erewrite bind_ok by reflexivity.
    destruct (Hstep s5) as (s7 & E7).
    erewrite bind_ok by (apply do_call_ok; exact E7).
    do 3 eexists. split; [reflexivity|]. simpl. rewrite C2. simpl.
    split.
    2:{ exists draws, ins, trs, []. split; [reflexivity|].
        split; [exact SI|]. split; [exact ST|].
        split; [exact Cr|]. split; [exact Cs|]. split; [exact Ld|].
        left. reflexivity. }
    rewrite <- !app_assoc. reflexivity.
Qed.

Lemma training_passes (n : nat) (acc : F) (w : world F S) :
  exists running_loss w' iterations,
    for_range n (training_body lib) acc w = Ok (running_loss, w') /\
    length iterations = n /\
    w_calls w' = w_calls w ++ concat iterations /\
    Forall one_training_iteration iterations.
Proof.
  induction n as [|n IH].
  - exists acc, w, []. simpl. rewrite app_nil_r. repeat split. constructor.
  - destruct IH as (rl & w1 & its & E & Hlen & Hc & Hall).
    destruct (training_body_returns n rl w1) as (rl' & w2 & cs & Eb & Hc2 & Hcs).
    exists rl', w2, (its ++ [cs]).
    split; [rewrite for_range_S; erewrite bind_ok by exact E; exact Eb|].
    split; [rewrite length_app; simpl; lia|].
    split.
    + rewrite Hc2, Hc, concat_app. simpl. now rewrite app_nil_r, app_assoc.
    + apply Forall_app. split; [exact Hall|]. constructor; [exact Hcs|constructor].
Qed.

End TrainingFacts.

(** ** Counting calls *)

Section CountFacts.

Context {F : Type} `{PyFloat F}.

Lemma count_app (p : call F -> bool) (l l' : list (call F)) :
  count p (l ++ l') = count p l + count p l'.
Proof. unfold count. now rewrite filter_app, length_app. Qed.

Lemma count_kinds_le (l : list (call F)) :
  count is_rand2 l + count is_solve_ivp l + count is_optimizer_step l
  + count is_zero_grad l + count is_run_model_loss l <= length l.
Proof.
  unfold count. induction l as [|c l IH]; simpl; [lia|].
  destruct c as [[|[|[|k]]]| | | | | | | | |]; simpl; lia.
Qed.

Lemma count_concat (p : call F -> bool) (c : nat) (ls : list (list (call F))) :
  Forall (fun l => count p l = c) ls -> count p (concat ls) = c * length ls.
Proof.
  induction 1 as [|l ls Hl _ IH]; simpl; [unfold count; simpl; lia|].
  rewrite count_app, Hl, IH. lia.
Qed.

Lemma one_training_iteration_counts (cs : list (call F)) :
  one_training_iteration cs ->
  count is_optimizer_step cs = 1 /\ count is_zero_grad cs = 1 /\
  count is_run_model_loss cs = 1 /\
  count is_rand2 cs = 20 /\ count is_solve_ivp cs = 20.
Proof.
  intros (draws & i & t & pr & -> & _ & _ & Cr & Cs & Ld & Hpr).
  pose proof (count_kinds_le draws) as Hle.
  rewrite !count_app.
  assert (Hp : forall p, (forall b x, p (Call_py_print b x) = false) ->
                         count p pr = 0).
  { intros p Hp. destruct Hpr as [->|(b & x & ->)]; unfold count; simpl;
      [reflexivity|now rewrite Hp]. }
  rewrite !Hp by reflexivity.
  unfold count in *. simpl. lia.
Qed.

End CountFacts.

(** ** Matrices element by element *)

Lemma index2_inv {A : Type} (m : list (list A)) (i j : nat) (x : A) :
  index2 m i j = Ok x ->
  exists row, nth_error m i = Some row /\ nth_error row j = Some x.
Proof.
  unfold index2, index. destruct (nth_error m i) as [row|]; simpl; [|discriminate].
  destruct (nth_error row j) eqn:E; [|discriminate].
  intros [= <-]. eauto.
Qed.

Lemma index2_ok {A : Type} (m : list (list A)) (i j : nat) (row : list A) (x : A) :
  nth_error m i = Some row -> nth_error row j = Some x -> index2 m i j = Ok x.
Proof. unfold index2, index. intros -> . simpl. now intros ->. Qed.

Lemma index2_lt {A : Type} (m : list (list A)) (r c i j : nat) :
  shape2 m r c -> i < r -> j < c -> exists x, index2 m i j = Ok x.
Proof.
  intros [Hr Hc] Hi Hj.
  destruct (nth_error m i) as [row|] eqn:Er; [|apply nth_error_None in Er; lia].
  assert (Hrow : length row = c).
  { rewrite Forall_forall in Hc. eapply Hc, nth_error_In, Er. }
  destruct (nth_error row j) as [x|] eqn:Ex; [|apply nth_error_None in Ex; lia].
  exists x. eapply index2_ok; eauto.
Qed.

Section MatrixFacts.

Context {F : Type} `{PyFloat F}.

Lemma mat_map_shape (f : F -> F) (m : list (list F)) (r c : nat) :
  shape2 m r c -> shape2 (mat_map f m) r c.
Proof.
  intros [Hr Hc]. split; [unfold mat_map; now rewrite length_map|].
  unfold mat_map. apply Forall_map. eapply Forall_impl; [|exact Hc].
  intros row Hrow. now rewrite length_map.
Qed.

Lemma mat_map_index2 (f : F -> F) (m : list (list F)) (i j : nat) (x : F) :
  index2 m i j = Ok x -> index2 (mat_map f m) i j = Ok (f x).
Proof.
  intros E. apply index2_inv in E as (row & Er & Ex).
  apply index2_ok with (row := map f row); unfold mat_map.
  - now rewrite nth_error_map, Er.
  - now rewrite nth_error_map, Ex.
Qed.

Lemma mat_map2_ok (f : F -> F -> F) (a b : list (list F)) (r c : nat) :
  shape2 a r c -> shape2 b r c -> mat_map2 f a b = Ok (zip_cells f a b).
Proof.
  intros [Ha Hca] [Hb Hcb]. unfold mat_map2, zip_cells.
  rewrite zip_exact_ok by lia. simpl.
  apply rmap_ok. apply Forall_forall. intros [ra rb] Hin.
  simpl. rewrite zip_exact_ok; [reflexivity|].
  rewrite Forall_forall in Hca, Hcb.
  rewrite (Hca ra), (Hcb rb); [reflexivity| |].
  - eapply in_combine_r, Hin.
  - eapply in_combine_l, Hin.
Qed.

Lemma zip_cells_shape (f : F -> F -> F) (a b : list (list F)) (r c : nat) :
  shape2 a r c -> shape2 b r c -> shape2 (zip_cells f a b) r c.
Proof.
  intros [Ha Hca] [Hb Hcb]. unfold zip_cells. split.
  - rewrite length_map, length_combine. lia.
  - apply Forall_map, Forall_forall. intros [ra rb] Hin. simpl.
    rewrite Forall_forall in Hca, Hcb.
    rewrite length_map, length_combine.
    rewrite (Hca ra), (Hcb rb); [lia| |].
    + eapply in_combine_r, Hin.
    + eapply in_combine_l, Hin.
Qed.

Lemma nth_error_combine {A B : Type} (l : list A) (l' : list B) (i : nat) x y :
  nth_error l i = Some x -> nth_error l' i = Some y ->
  nth_error (combine l l') i = Some (x, y).
Proof.
  revert l' i. induction l as [|a l IH]; intros [|b l'] [|i]; simpl;
    try discriminate.
  - now intros [= ->] [= ->].
  - apply IH.
Qed.

Lemma zip_cells_index2 (f : F -> F -> F) (a b : list (list F)) (i j : nat) x y :
  index2 a i j = Ok x -> index2 b i j = Ok y ->
  index2 (zip_cells f a b) i j = Ok (f x y).
Proof.
  intros Ea Eb.
  apply index2_inv in Ea as (ra & Era & Ex).
  apply index2_inv in Eb as (rb & Erb & Ey).
  unfold zip_cells.
  eapply index2_ok.
  - rewrite nth_error_map, (nth_error_combine _ _ _ Era Erb). reflexivity.
  - simpl. rewrite nth_error_map, (nth_error_combine _ _ _ Ex Ey). reflexivity.
Qed.

Local Open Scope py_scope.

(** The derivative arrays of [plot_flow_field] on any grid. *)
Lemma flow_derivatives_ok (X1 X2 : list (list F)) (r c : nat) :
  shape2 X1 r c -> shape2 X2 r c ->
  exists dx2,
    flow_derivatives X1 X2 = Ok (X2, dx2) /\
    shape2 dx2 r c /\
    forall i j x1 x2,
      index2 X1 i j = Ok x1 -> index2 X2 i j = Ok x2 ->
      index2 dx2 i j = Ok (lit (1 # 10) * (lit 1 - x1 ** 2) * x2 - x1).
Proof.
  intros S1 S2. unfold flow_derivatives.
  cbv zeta.
  set (A := mat_map (fun v => lit (1 # 10) * v)
              (mat_map (fun v => lit 1 - v) (mat_map (fun v => v ** 2) X1))).
  assert (SA : shape2 A r c) by (unfold A; now repeat apply mat_map_shape).
  rewrite (mat_map2_ok mul SA S2). simpl.
  pose proof (zip_cells_shape mul SA S2) as SP.
  rewrite (mat_map2_ok sub SP S1). simpl.
  eexists. split; [reflexivity|]. split; [now apply zip_cells_shape|].
  intros i j x1 x2 E1 E2.
  apply zip_cells_index2; [|exact E1].
  apply zip_cells_index2; [|exact E2].
  unfold A.
  apply (mat_map_index2 (fun v => lit (1 # 10) * v)).
  apply (mat_map_index2 (fun v => lit 1 - v)).
  now apply (mat_map_index2 (fun v => v ** 2)).
Qed.

Lemma np_meshgrid_shape (x1 x2 : list F) :
  shape2 (fst (np_meshgrid x1 x2)) (length x2) (length x1) /\
  shape2 (snd (np_meshgrid x1 x2)) (length x2) (length x1).
Proof.
  unfold np_meshgrid. simpl. split; split; try now rewrite length_map.
  - apply Forall_map, Forall_forall. reflexivity.
  - apply Forall_map, Forall_forall. intros. now rewrite length_map.
Qed.

(** [plot_flow_field] computes its grid and derivatives and hands them to
    matplotlib. *)
Lemma flow_field_ok :
  exists X1 X2 dx1 dx2,
    flow_field = Ok (X1, X2, dx1, dx2) /\
    shape2 X1 20 20 /\ shape2 X2 20 20 /\ dx1 = X2 /\ shape2 dx2 20 20 /\
    forall i j x1 x2,
      index2 X1 i j = Ok x1 -> index2 X2 i j = Ok x2 ->
      index2 dx2 i j = Ok (lit (1 # 10) * (lit 1 - x1 ** 2) * x2 - x1).
Proof.
  unfold flow_field.
  destruct (np_linspace_ok (lit (-5)) (lit 5) (num := 20) ltac:(lia))
    as (x & Ex & Lx).
  rewrite Ex. simpl rbind.
  destruct (np_meshgrid_shape x x) as [S1 S2].
  destruct (np_meshgrid x x) as [X1 X2] eqn:EM. simpl in S1, S2.
  rewrite Lx in S1, S2. change (Z.to_nat 20) with 20 in S1, S2.
  destruct (flow_derivatives_ok S1 S2) as (dx2 & E & SD & HD).
  unfold np_meshgrid in EM. injection EM as E1 E2.
  rewrite E1, E2, E. simpl. exists X1, X2, X2, dx2. auto 10.
Qed.

End MatrixFacts.

(** ** The network *)

Section NetworkFacts.

Context {F : Type} `{PyFloat F}.
Variables (sigmoid tanh : F -> F).

Lemma vadd_length (u v : list F) :
  length (vadd u v) = Nat.min (length u) (length v).
Proof. unfold vadd. now rewrite length_map, length_combine. Qed.

Lemma vmul_length (u v : list F) :
  length (vmul u v) = Nat.min (length u) (length v).
Proof. unfold vmul. now rewrite length_map, length_combine. Qed.

Lemma Linear_forward_length (l : nn_Linear) (x : list F) :
  length (Linear_forward l x)
  = Nat.min (length (lin_weight l)) (length (lin_bias l)).
Proof. unfold Linear_forward. now rewrite length_map, length_combine. Qed.

(** One step of the cell keeps the two halves of the state at the hidden
    size. *)
Lemma lstm_cell_length (p : nn_LSTM) (n_in n_hidden : nat) (x h c : list F) :
  LSTM_ok p n_in n_hidden -> length c = n_hidden ->
  length (fst (lstm_cell sigmoid tanh p x (h, c))) = n_hidden /\
  length (snd (lstm_cell sigmoid tanh p x (h, c))) = n_hidden.
Proof.
  intros (Hh & [Wih _] & [Whh _] & Bih & Bhh) Hc.
  unfold lstm_cell. cbv zeta. simpl fst. simpl snd.
  set (gates := vadd _ _).
  assert (G : length gates = 4 * n_hidden).
  { unfold gates. rewrite vadd_length, !Linear_forward_length. simpl. lia. }
  rewrite Hh.
  repeat progress rewrite ?vmul_length, ?vadd_length, ?length_map,
    ?length_firstn, ?length_skipn.
  rewrite G. lia.
Qed.

Lemma lstm_scan_shape (p : nn_LSTM) (n_in n_hidden N : nat)
  (input : list (list (list F))) (states : list (list F * list F)) :
  LSTM_ok p n_in n_hidden ->
  Forall (fun xt => length xt = N) input ->
  length states = N -> Forall (state_ok n_hidden) states ->
  shape3 (lstm_scan sigmoid tanh p input states) (length input) N n_hidden.
Proof.
  intros Hp Hin. revert states.
  induction Hin as [|xt rest Hxt _ IH]; intros states Hlen Hst.
  - split; [reflexivity|constructor].
  - simpl lstm_scan.
    set (states' := map _ (combine xt states)).
    assert (L' : length states' = N).
    { unfold states'. rewrite length_map, length_combine. lia. }
    assert (S' : Forall (fun hc => length (fst hc) = n_hidden /\ state_ok n_hidden hc)
                   states').
    { unfold states'. apply Forall_map, Forall_forall. intros [x [h c]] Hxs.
      apply in_combine_r in Hxs. rewrite Forall_forall in Hst.
      specialize (Hst _ Hxs). unfold state_ok in *. simpl in *.
      now apply lstm_cell_length with (n_in := n_in). }
    destruct (IH states' L') as [IL IS].
    { eapply Forall_impl; [|exact S']. now intros hc [_ Hc]. }
    split; [simpl; now rewrite IL|].
    constructor; [|exact IS].
    split; [now rewrite length_map|].
    apply Forall_map. eapply Forall_impl; [|exact S']. now intros hc [Hh _].
Qed.

Lemma shape3_rows {A : Type} (x : list (list (list A))) (a b c : nat) :
  shape3 x a b c -> Forall (fun xt => length xt = b) x.
Proof. intros [_ Hx]. eapply Forall_impl; [|exact Hx]. now intros m [Hm _]. Qed.

Lemma LSTM_forward_shape (p : nn_LSTM) (n_in n_hidden L N : nat)
  (input : list (list (list F))) :
  LSTM_ok p n_in n_hidden -> shape3 input L N n_in ->
  shape3 (LSTM_forward sigmoid tanh p input) L N n_hidden.
Proof.
  intros Hp Hin. pose proof (shape3_rows Hin) as Hrows.
  destruct Hin as [HL _]. rewrite <- HL. unfold LSTM_forward.
  destruct input as [|x0 rest]; [split; [reflexivity|constructor]|].
  assert (E : length (hd [] (x0 :: rest)) = N) by (now apply Forall_inv in Hrows).
  rewrite E.
  apply lstm_scan_shape with (n_in := n_in); try assumption.
  - apply repeat_length.
  - apply Forall_forall. intros hc Hhc. apply repeat_spec in Hhc as ->.
    unfold state_ok. simpl. rewrite repeat_length. now destruct Hp.
Qed.

Lemma forward_shape (net : LSTMNetwork) (input_dim hidden_dim target_dim L N : nat)
  (input : list (list (list F))) :
  LSTMNetwork_ok net input_dim hidden_dim target_dim ->
  shape3 input L N input_dim ->
  shape3 (forward sigmoid tanh net input) L N target_dim.
Proof.
  intros [Hp [[Hw _] Hb]] Hin.
  destruct (LSTM_forward_shape Hp Hin) as [HL Hrows].
  unfold forward. split; [now rewrite length_map|].
  apply Forall_map. eapply Forall_impl; [|exact Hrows].
  intros m [Hm _]. split; [now rewrite length_map|].
  apply Forall_map, Forall_forall. intros h _.
  rewrite Linear_forward_length. lia.
Qed.

(** The outputs up to a time depend on the inputs up to that time only. *)
Lemma lstm_scan_firstn (p : nn_LSTM) (t : nat) (input : list (list (list F)))
  (states : list (list F * list F)) :
  lstm_scan sigmoid tanh p (firstn t input) states
  = firstn t (lstm_scan sigmoid tanh p input states).
Proof.
  revert t states. induction input as [|xt rest IH]; intros [|t] states;
    simpl; try reflexivity.
  now rewrite IH.
Qed.

Lemma forward_firstn (net : LSTMNetwork) (t : nat) (input : list (list (list F))) :
  forward sigmoid tanh net (firstn t input)
  = firstn t (forward sigmoid tanh net input).
Proof.
  unfold forward, LSTM_forward. rewrite firstn_map.
  destruct t as [|t]; [reflexivity|].
  destruct input as [|x0 rest]; [reflexivity|].
  f_equal.
  change (hd [] (firstn (Datatypes.S t) (x0 :: rest))) with x0.
  apply lstm_scan_firstn.
Qed.

End NetworkFacts.

(** ** The test doubles keep the contracts *)

Section DoubleFacts.

Context {F : Type} `{PyFloat F}.

Lemma demo_lib_numeric_ok : numeric_calls_ok (demo_lib (F := F) None).
Proof.
  split.
  - intros k s. do 2 eexists. split; [reflexivity|].
    now rewrite length_map, length_seq.
  - intros [t0 tf] y0 max_step s Hy.
    destruct y0 as [|a [|b [|]]]; try discriminate.
    do 2 eexists. split; [reflexivity|].
    split; [discriminate|]. split; [reflexivity|]. repeat constructor.
Qed.

Lemma demo_lib_training_ok : training_calls_ok (demo_lib (F := F) None).
Proof. repeat split; intros; repeat eexists. Qed.

End DoubleFacts.

(** * The claims *)

(** ** The dynamics *)

(** C1: on every state [(x1, x2)] and at every time,
    [van_der_pol_dynamics] returns [[x2, mu*(1 - x1^2)*x2 - x1]] with the fixed
    [mu = 0.1 > 0] (the literal [0.1] read as a rational and as a binary64
    number), in every arithmetic; on exact numbers the pair
    [(dx, dv)] it returns satisfies the second-order van der Pol equation
    [dv - mu*(1 - x^2)*dx + x = 0] with [dx = v]. *)
Theorem van_der_pol_dynamics_rhs :
  (forall (F : Type) (PF : PyFloat F) (t x1 x2 : F),
     van_der_pol_dynamics t [x1; x2]
     = Ok [x2; (lit (1 # 10) * (lit 1 - x1 ** 2) * x2 - x1)%py]) /\
  (lit (F := Q) (1 # 10) = (1 # 10)%Q /\ (0 < lit (F := Q) (1 # 10))%Q) /\
  (lit (F := float) (1 # 10) = 0x1.999999999999ap-4%float /\
   PrimFloat.ltb 0 (lit (F := float) (1 # 10)) = true) /\
  (forall t x v : Q, exists dx dv : Q,
     van_der_pol_dynamics t [x; v] = Ok [dx; dv] /\
     (dx == v)%Q /\
     (dv - (1 # 10) * (1 - x * x) * dx + x == 0)%Q).
Proof.
  split; [reflexivity|]. split; [split; reflexivity|].
  split; [split; reflexivity|].
  intros t x v. do 2 eexists. split; [reflexivity|]. split; [reflexivity|].
  simpl. ring.
Qed.

(** C9: the derivative [van_der_pol_dynamics] returns does not depend on the
    time argument: two times give the same result on every state (an
    IndexError included), and the result is a function of the state alone. *)
Theorem van_der_pol_dynamics_time_invariant :
  forall (F : Type) (PF : PyFloat F),
    (forall (t1 t2 : F) (x : list F),
       van_der_pol_dynamics t1 x = van_der_pol_dynamics t2 x) /\
    (exists f : list F -> result (list F),
       forall (t : F) (x : list F), van_der_pol_dynamics t x = f x).
Proof.
  intros F PF. split.
  - intros t1 t2 x. reflexivity.
  - exists (van_der_pol_dynamics (lit 0)). intros t x. reflexivity.
Qed.

(** C10: [plot_flow_field] computes a 20 by 20 grid and, at every grid point
    [(x1, x2)], the pair [(dx1, dx2)] that [van_der_pol_dynamics] returns for
    the state [[x1, x2]] at any time; these are the arrays it hands to
    [plt.streamplot]. *)
Theorem flow_field_is_van_der_pol :
  forall (F : Type) (PF : PyFloat F),
  exists X1 X2 dx1 dx2 : list (list F),
    flow_field = Ok (X1, X2, dx1, dx2) /\
    (shape2 X1 20 20 /\ shape2 X2 20 20 /\ shape2 dx1 20 20 /\ shape2 dx2 20 20) /\
    (forall i j, i < 20 -> j < 20 ->
       exists x1 x2 d1 d2,
         index2 X1 i j = Ok x1 /\ index2 X2 i j = Ok x2 /\
         index2 dx1 i j = Ok d1 /\ index2 dx2 i j = Ok d2 /\
         forall t, van_der_pol_dynamics t [x1; x2] = Ok [d1; d2]) /\
    (forall (S L : Type) (lib : Library F S L) (w : world F S),
       plot_flow_field lib w
       = bind (do_call (Call_plt_figure (4, 4)%Z) (plt_figure lib (4, 4)%Z))
              (fun _ => do_call (Call_plt_streamplot X1 X2 dx1 dx2 1)
                          (plt_streamplot lib X1 X2 dx1 dx2 1)) w).
Proof.
  intros F PF.
  destruct (flow_field_ok (F := F)) as (X1 & X2 & dx1 & dx2 & E & S1 & S2 & -> & SD & HD).
  exists X1, X2, X2, dx2. split; [exact E|]. split; [auto|]. split.
  - intros i j Hi Hj.
    destruct (index2_lt S1 Hi Hj) as (x1 & E1).
    destruct (index2_lt S2 Hi Hj) as (x2 & E2).
    exists x1, x2, x2, (lit (1 # 10) * (lit 1 - x1 ** 2) * x2 - x1)%py.
    repeat split; auto.
  - intros S L lib w. unfold plot_flow_field. rewrite E. reflexivity.
Qed.

Lemma flow_field_is_van_der_pol_witness :
  exists X1 X2 dx1 dx2 : list (list Q),
    flow_field = Ok (X1, X2, dx1, dx2) /\
    exists x1 x2 d1 d2,
      index2 X1 3 7 = Ok x1 /\ index2 X2 3 7 = Ok x2 /\
      index2 dx1 3 7 = Ok d1 /\ index2 dx2 3 7 = Ok d2 /\
      forall t, van_der_pol_dynamics t [x1; x2] = Ok [d1; d2].
Proof.
  destruct (flow_field_is_van_der_pol PyFloat_Q)
    as (X1 & X2 & dx1 & dx2 & E & _ & Hcells & _).
  exists X1, X2, dx1, dx2. split; [exact E|].
  apply Hcells; lia.
Defined.

(** ** Trajectories *)

Lemma random_initial_state_range (r : list Q) :
  Forall (fun u => 0 <= u /\ u < 1)%Q r ->
  Forall (fun x => -5 <= x /\ x < 5)%Q (random_initial_state r).
Proof.
  intros Hr. unfold random_initial_state. apply Forall_map.
  eapply Forall_impl; [|exact Hr]. intros u [H0 H1]. simpl. split; lra.
Qed.

(** C5: [get_random_trajectory] integrates nothing itself: in every
    arithmetic and for every library it returns what the claim's reading
    returns, the solution of [solve_ivp] for [van_der_pol_dynamics] over
    [[0, 2]] from the random initial state, each component resampled by
    [np.interp] on the time grid; on exact numbers the initial state of
    uniform samples from [[0, 1)] lies in [[-5, 5)] and the grid is
    [0, 0.1, ..., 2]. *)
Theorem get_random_trajectory_resamples_solver :
  (forall (F S L : Type) (PF : PyFloat F) (lib : Library F S L) (w : world F S),
     get_random_trajectory lib w = resampled_solver_trajectory lib w) /\
  (forall r : list Q,
     Forall (fun u => 0 <= u /\ u < 1)%Q r ->
     Forall (fun x => -5 <= x /\ x < 5)%Q (random_initial_state r)) /\
  (exists grid : list Q,
     time_grid = Ok grid /\
     Forall2 Qeq grid (map (fun i => inject_Z (Z.of_nat i) / 10)%Q (seq 0 21))).
Proof.
  split; [intros; apply get_random_trajectory_reading|].
  split; [exact random_initial_state_range|].
  eexists. split; [vm_compute; reflexivity|].
  vm_compute. repeat constructor.
Qed.

Lemma get_random_trajectory_resamples_solver_witness :
  Forall (fun x => -5 <= x /\ x < 5)%Q
    (random_initial_state [0; 9 # 10; 1 # 3]%Q).
Proof.
  apply (proj1 (proj2 get_random_trajectory_resamples_solver)).
  repeat constructor; simpl; lra.
Defined.

(** C8: there is one constant [K], the length of
    [np.linspace(0, 2, int(2/0.1)+1)], such that [get_random_trajectory]
    returns an array of shape [(2, K)] whatever solution [solve_ivp] returned,
    with any number of time points; [K] is 21 on exact numbers and in
    binary64; so the trajectories of a minibatch all have [K] steps. *)
Theorem get_random_trajectory_shape :
  forall (F S L : Type) (PF : PyFloat F) (lib : Library F S L) (w : world F S)
         (r : list F) (s1 : S) (sol : OdeResult F) (s2 : S),
    (0 <= num_samples (F := F))%Z ->
    np_random_rand lib 2 (w_state w) = Ok (r, s1) ->
    solve_ivp lib van_der_pol_dynamics (lit 0, lit 2) (random_initial_state r)
      (lit (1 # 10)) s1 = Ok (sol, s2) ->
    length r = 2 ->
    solution_ok (random_initial_state r) sol ->
    (exists traj w',
       get_random_trajectory lib w = Ok (traj, w') /\ shape2 traj 2 K) /\
    (forall grid : list F, time_grid = Ok grid -> length grid = K) /\
    (K (F := Q) = 21 /\ K (F := float) = 21) /\
    (numeric_calls_ok lib -> 1 <= K (F := F) ->
     forall n w0, 1 <= n ->
       exists inputs trajectories w',
         get_minibatch lib n w0 = Ok ((Nd3 inputs, Nd3 trajectories), w') /\
         shape3 trajectories K n 2).
Proof.
  intros F S L PF lib w r s1 sol s2 Hpos Hrand Hsolve Hr Hsol.
  split.
  { destruct (get_random_trajectory_returns lib w Hpos Hrand Hsolve Hr Hsol)
      as (traj & E & Hshape).
    eauto. }
  split; [exact (@K_length_grid F PF)|]. split; [split; reflexivity|].
  intros Hlib HK n w0 Hn.
  destruct (get_minibatch_returns Hlib HK w0 Hn)
    as (ins & trs & w' & draws & E & _ & ST & _).
  eauto.
Qed.

Lemma get_random_trajectory_shape_witness :
  exists traj w',
    get_random_trajectory (F := float) (demo_lib None) demo_world = Ok (traj, w')
    /\ shape2 traj 2 21.
Proof.
  refine (proj1 (@get_random_trajectory_shape float nat float _ (demo_lib None)
                   demo_world _ _ _ _ _ _ _ _ _)).
  - vm_compute. discriminate.
  - reflexivity.
  - reflexivity.
  - reflexivity.
  - split; [discriminate|]. split; [reflexivity|]. repeat constructor.
Defined.

(** ** Minibatches *)

(** C3: for [n >= 1], [get_minibatch(n)] returns two tensors of the same shape
    [(K, n, 2)] (sequence, minibatch, elements) such that for every example
    [i] the input at step 0 is the trajectory at step 0 and the input at
    every later step is the zero vector (the float32 zero, which is zero in
    both arithmetics).  The library calls are assumed to return as
    documented, and the time grid to have a sample ([K >= 1]). *)
Theorem get_minibatch_shape :
  forall (F S L : Type) (PF : PyFloat F) (lib : Library F S L) (n : nat)
         (w : world F S),
    numeric_calls_ok lib -> 1 <= K (F := F) -> 1 <= n ->
    (exists inputs trajectories w',
       get_minibatch lib n w = Ok ((Nd3 inputs, Nd3 trajectories), w') /\
       shape3 inputs K n 2 /\ shape3 trajectories K n 2 /\
       forall i, i < n ->
         (exists v, index3 inputs 0 i = Ok v /\ index3 trajectories 0 i = Ok v) /\
         (forall t, 1 <= t < K ->
            index3 inputs t i = Ok [float32 zero; float32 zero])) /\
    float32 (zero (F := Q)) = zero /\ float32 (zero (F := float)) = zero.
Proof.
  intros F S L PF lib n w Hlib HK Hn.
  destruct (get_minibatch_returns Hlib HK w Hn)
    as (ins & trs & w' & draws & E & SI & ST & Hcells & _).
  split; [|split; reflexivity].
  exists ins, trs, w'. auto.
Qed.

Lemma get_minibatch_shape_witness :
  exists inputs trajectories w',
    get_minibatch (F := Q) (demo_lib None) 3 demo_world
      = Ok ((Nd3 inputs, Nd3 trajectories), w') /\
    shape3 inputs 21 3 2 /\ shape3 trajectories 21 3 2 /\
    forall i, i < 3 ->
      (exists v, index3 inputs 0 i = Ok v /\ index3 trajectories 0 i = Ok v) /\
      (forall t, 1 <= t < 21 -> index3 inputs t i = Ok [0; 0]%Q).
Proof.
  refine (proj1 (@get_minibatch_shape Q nat Q _ (demo_lib None) 3 demo_world
                   _ _ _)).
  - apply demo_lib_numeric_ok.
  - vm_compute. lia.
  - lia.
Defined.

(** X10: an empty minibatch is an error whatever the libraries do: with no
    example [np.array] gives a one-dimensional array and [swapaxes(0, 1)]
    raises AxisError (so the bound [n >= 1] is needed). *)
Lemma get_minibatch_0 (F S L : Type) (PF : PyFloat F) (lib : Library F S L)
  (w : world F S) :
  get_minibatch lib 0 w = Raise AxisError.
Proof. reflexivity. Qed.

(** ** The training loop *)

(** C2: the training loop makes exactly 2000 passes and returns: its calls
    are 2000 blocks, each with the draws of one minibatch of 20 examples
    (tensors of shape [(K, 20, 2)]) and exactly one optimizer step, whatever
    values the library calls return.  The library calls are assumed to
    return. *)
Theorem training_loop_fixed_iterations :
  forall (F S L : Type) (PF : PyFloat F) (lib : Library F S L) (w : world F S),
    numeric_calls_ok lib -> training_calls_ok lib -> 1 <= K (F := F) ->
    exists running_loss w' iterations,
      training_loop lib w = Ok (running_loss, w') /\
      length iterations = 2000 /\
      w_calls w' = w_calls w ++ concat iterations /\
      Forall one_training_iteration iterations /\
      count is_optimizer_step (concat iterations) = 2000 /\
      count is_zero_grad (concat iterations) = 2000 /\
      count is_run_model_loss (concat iterations) = 2000 /\
      count is_rand2 (concat iterations) = 20 * 2000 /\
      count is_solve_ivp (concat iterations) = 20 * 2000.
Proof.
  intros F S L PF lib w Hlib Htorch HK.
  destruct (training_passes Hlib Htorch HK 2000 (lit 0) w)
    as (rl & w' & its & E & Hlen & Hc & Hall).
  exists rl, w', its. split; [exact E|]. split; [exact Hlen|].
  split; [exact Hc|]. split; [exact Hall|].
  assert (C : forall p c,
             (forall cs, one_training_iteration cs -> count p cs = c) ->
             count p (concat its) = c * 2000).
  { intros p c Hp. rewrite <- Hlen. apply count_concat.
    eapply Forall_impl; [|exact Hall]. exact Hp. }
  pose proof (@one_training_iteration_counts F PF) as Hone.
  split; [exact (C _ 1 (fun cs Hcs => proj1 (Hone cs Hcs)))|].
  split; [exact (C _ 1 (fun cs Hcs => proj1 (proj2 (Hone cs Hcs))))|].
  split; [exact (C _ 1 (fun cs Hcs => proj1 (proj2 (proj2 (Hone cs Hcs)))))|].
  split; [exact (C _ 20 (fun cs Hcs => proj1 (proj2 (proj2 (proj2 (Hone cs Hcs))))))|].
  exact (C _ 20 (fun cs Hcs => proj2 (proj2 (proj2 (proj2 (Hone cs Hcs)))))).
Qed.

Lemma training_loop_fixed_iterations_witness :
  exists running_loss w' iterations,
    training_loop (F := Q) (demo_lib None) demo_world = Ok (running_loss, w') /\
    length iterations = 2000 /\
    w_calls w' = w_calls (demo_world (F := Q)) ++ concat iterations /\
    Forall one_training_iteration iterations /\
    count is_optimizer_step (concat iterations) = 2000 /\
    count is_zero_grad (concat iterations) = 2000 /\
    count is_run_model_loss (concat iterations) = 2000 /\
    count is_rand2 (concat iterations) = 20 * 2000 /\
    count is_solve_ivp (concat iterations) = 20 * 2000.
Proof.
  apply (@training_loop_fixed_iterations Q nat Q _ (demo_lib None) demo_world).
  - apply demo_lib_numeric_ok.
  - apply demo_lib_training_ok.
  - vm_compute. lia.
Defined.

(** ** Exceptions *)

Lemma van_der_pol_dynamics_returns_or_IndexError (F : Type) (PF : PyFloat F)
  (t : F) (x : list F) :
  (exists d, van_der_pol_dynamics t x = Ok d) \/
  van_der_pol_dynamics t x = Raise IndexError.
Proof.
  destruct x as [|a [|b x]]; [right; reflexivity|right; reflexivity|].
  left. eexists. reflexivity.
Qed.

(** C6: no operation of the notebook handles an exception: when a library
    call inside it raises [e], the operation raises the same [e] (and so do
    the loops around it, at once: nothing is retried); and
    [van_der_pol_dynamics], which calls nothing, returns or raises the
    IndexError of its indexing. *)
Theorem exceptions_propagate_unchanged :
  forall (F S L : Type) (PF : PyFloat F) (lib : Library F S L) (e : exn),
    (* plot_flow_field *)
    (forall w, plt_figure lib (4, 4)%Z (w_state w) = Raise e ->
               plot_flow_field lib w = Raise e) /\
    (forall w s1 X1 X2 dx1 dx2,
        flow_field = Ok (X1, X2, dx1, dx2) ->
        plt_figure lib (4, 4)%Z (w_state w) = Ok (tt, s1) ->
        plt_streamplot lib X1 X2 dx1 dx2 1 s1 = Raise e ->
        plot_flow_field lib w = Raise e) /\
    (* van_der_pol_dynamics *)
    (forall t x, (exists d, van_der_pol_dynamics t x = Ok d) \/
                 van_der_pol_dynamics t x = Raise IndexError) /\
    (* get_random_trajectory *)
    (forall w, np_random_rand lib 2 (w_state w) = Raise e ->
               get_random_trajectory lib w = Raise e) /\
    (forall w r s1,
        np_random_rand lib 2 (w_state w) = Ok (r, s1) ->
        solve_ivp lib van_der_pol_dynamics (lit 0, lit 2)
          (random_initial_state r) (lit (1 # 10)) s1 = Raise e ->
        get_random_trajectory lib w = Raise e) /\
    (* get_minibatch *)
    (forall n k acc w w',
        k < n ->
        for_range k (get_minibatch_body lib) ([], []) w = Ok (acc, w') ->
        get_random_trajectory lib w' = Raise e ->
        get_minibatch lib n w = Raise e) /\
    (* the training loop *)
    (forall k running_loss w w',
        k < 2000 ->
        for_range k (training_body lib) (lit 0) w = Ok (running_loss, w') ->
        training_body lib k running_loss w' = Raise e ->
        training_loop lib w = Raise e) /\
    (* one pass of the training loop, call by call *)
    (forall k running_loss w,
        model_zero_grad lib (w_state w) = Raise e ->
        training_body lib k running_loss w = Raise e) /\
    (forall k running_loss w s1,
        model_zero_grad lib (w_state w) = Ok (tt, s1) ->
        get_minibatch lib 20
          {| w_state := s1; w_calls := w_calls w ++ [Call_model_zero_grad] |}
          = Raise e ->
        training_body lib k running_loss w = Raise e) /\
    (forall k running_loss w s1 i t w2,
        model_zero_grad lib (w_state w) = Ok (tt, s1) ->
        get_minibatch lib 20
          {| w_state := s1; w_calls := w_calls w ++ [Call_model_zero_grad] |}
          = Ok ((i, t), w2) ->
        (run_model_loss lib i t (w_state w2) = Raise e \/
         exists l s3,
           run_model_loss lib i t (w_state w2) = Ok (l, s3) /\
           (loss_backward lib l s3 = Raise e \/
            exists s4,
              loss_backward lib l s3 = Ok (tt, s4) /\
              (loss_item lib l s4 = Raise e \/
               exists x s5,
                 loss_item lib l s4 = Ok (x, s5) /\
                 let rl := (lit (9 # 10) * running_loss + lit (1 # 10) * x)%py in
                 ((Nat.eqb (k mod 50) 49 = true /\
                   py_print lib (Z.of_nat k + 1)%Z rl s5 = Raise e) \/
                  (Nat.eqb (k mod 50) 49 = true /\
                   exists s6,
                     py_print lib (Z.of_nat k + 1)%Z rl s5 = Ok (tt, s6) /\
                     optimizer_step lib s6 = Raise e) \/
                  (Nat.eqb (k mod 50) 49 = false /\
                   optimizer_step lib s5 = Raise e))))) ->
        training_body lib k running_loss w = Raise e).
Proof.
  intros F S L PF lib e.
  split.
  { intros w Hfig. unfold plot_flow_field.
    destruct (flow_field_ok (F := F)) as (X1 & X2 & dx1 & dx2 & E & _).
    step_ok E. stop_raise Hfig. }
  split.
  { intros w s1 X1 X2 dx1 dx2 E Hfig Hplot. unfold plot_flow_field.
    step_ok E. step_ok Hfig. now apply do_call_raise. }
  split; [apply van_der_pol_dynamics_returns_or_IndexError|].
  split.
  { intros w Hrand. unfold get_random_trajectory. cbv zeta. stop_raise Hrand. }
  split.
  { intros w r s1 Hrand Hsolve. unfold get_random_trajectory. cbv zeta.
    step_ok Hrand. stop_raise Hsolve. }
  split.
  { intros n k acc w w' Hk Hpre Hraise. unfold get_minibatch.
    apply bind_raise. eapply for_range_raise; [exact Hk|exact Hpre|].
    destruct acc as [ins trs]. unfold get_minibatch_body. stop_raise Hraise. }
  split.
  { intros k rl w w' Hk Hpre Hraise. unfold training_loop.
    eapply for_range_raise; eauto. }
  split.
  { intros k rl w Hzero. unfold training_body. stop_raise Hzero. }
  split.
  { intros k rl w s1 Hzero Hbatch. unfold training_body.
    step_ok Hzero. stop_raise Hbatch. }
  intros k rl w s1 i t w2 Hzero Hbatch Hrest. unfold training_body.
  step_ok Hzero. step_ok Hbatch.
  destruct Hrest as [Hrun|(l & s3 & Hrun & Hrest)]; [stop_raise Hrun|].
  step_ok Hrun.
  destruct Hrest as [Hback|(s4 & Hback & Hrest)]; [stop_raise Hback|].
  step_ok Hback.
  destruct Hrest as [Hitem|(x & s5 & Hitem & Hrest)]; [stop_raise Hitem|].
  step_ok Hitem. cbv zeta in Hrest.
  destruct Hrest as [[-> Hprint]|[[-> (s6 & Hprint & Hstep)]|[-> Hstep]]].
  - stop_raise Hprint.
  - step_ok Hprint. stop_raise Hstep.
  - erewrite bind_ok by reflexivity. stop_raise Hstep.
Qed.

Lemma exceptions_propagate_unchanged_witness :
  training_loop (F := Q) (demo_lib (Some 40)) demo_world
  = Raise (LibraryError "entropy").
Proof.
  refine (proj1 (proj2 (proj2 (proj2 (proj2 (proj2 (proj2
            (@exceptions_propagate_unchanged Q nat Q _ (demo_lib (Some 40))
               (LibraryError "entropy"))))))))
            1 _ demo_world _ _ _ _).
  - lia.
  - vm_compute. reflexivity.
  - vm_compute. reflexivity.
Defined.

(** ** The network *)

(** C4: the network is a recurrent layer followed by a linear layer:
    [forward] is the linear layer applied to every hidden state the LSTM
    layer produces; on an input sequence of shape [(L, N, input_dim)] the
    hidden states have shape [(L, N, hidden_dim)] and the output has shape
    [(L, N, target_dim)], one decoded state per step and example; and the
    output up to a step depends on the input up to that step only. *)
Theorem LSTMNetwork_forward_two_layers :
  forall (F : Type) (PF : PyFloat F) (sigmoid tanh : F -> F)
         (net : LSTMNetwork) (input_dim hidden_dim target_dim L N : nat)
         (input : list (list (list F))),
    LSTMNetwork_ok net input_dim hidden_dim target_dim ->
    shape3 input L N input_dim ->
    forward sigmoid tanh net input
    = map (map (Linear_forward (linear net)))
          (LSTM_forward sigmoid tanh (lstm net) input) /\
    shape3 (LSTM_forward sigmoid tanh (lstm net) input) L N hidden_dim /\
    shape3 (forward sigmoid tanh net input) L N target_dim /\
    forall t, forward sigmoid tanh net (firstn t input)
              = firstn t (forward sigmoid tanh net input).
Proof.
  intros F PF sigmoid tanh net input_dim hidden_dim target_dim L N input Hnet Hin.
  split; [reflexivity|].
  split; [exact (LSTM_forward_shape sigmoid tanh (proj1 Hnet) Hin)|].
  split; [exact (forward_shape sigmoid tanh Hnet Hin)|].
  intros t. apply forward_firstn.
Qed.

Lemma LSTMNetwork_forward_two_layers_witness :
  shape3 (LSTM_forward demo_squash demo_squash (lstm demo_net) demo_input) 3 2 1 /\
  shape3 (forward demo_squash demo_squash demo_net demo_input) 3 2 2.
Proof.
  assert (Hnet : LSTMNetwork_ok demo_net 2 1 2).
  { unfold LSTMNetwork_ok, LSTM_ok, Linear_ok, shape2. simpl.
    repeat split; repeat constructor. }
  assert (Hin : shape3 demo_input 3 2 2).
  { unfold shape3, shape2. simpl. repeat split; repeat constructor. }
  destruct (@LSTMNetwork_forward_two_layers Q _ demo_squash demo_squash demo_net
              2 1 2 3 2 demo_input Hnet Hin) as (_ & Hh & Ho & _).
  split; assumption.
Defined.

(* ================================================================== *)
(** * Further properties *)
(* ================================================================== *)

(** ** The dynamics *)

(** X1: [van_der_pol_dynamics] needs two state entries: a state with fewer
    raises IndexError, and on a longer state it returns the two derivatives
    of its first two entries and ignores the rest. *)
Theorem van_der_pol_dynamics_arity :
  forall (F : Type) (PF : PyFloat F) (t : F) (x : list F),
    (length x < 2 -> van_der_pol_dynamics t x = Raise IndexError) /\
    (2 <= length x ->
     exists d1 d2,
       van_der_pol_dynamics t x = Ok [d1; d2] /\
       van_der_pol_dynamics t (firstn 2 x) = Ok [d1; d2]).
Proof.
  intros F PF t x. split; intros Hx.
  - destruct x as [|a [|b x]]; simpl in Hx; try lia; reflexivity.
  - destruct x as [|a [|b x]]; simpl in Hx; try lia.
    do 2 eexists. split; reflexivity.
Qed.

Lemma van_der_pol_dynamics_arity_witness :
  van_der_pol_dynamics 0%Q [1%Q] = Raise IndexError /\
  exists d1 d2,
    van_der_pol_dynamics 0%Q [1; 2; 7]%Q = Ok [d1; d2] /\
    van_der_pol_dynamics 0%Q (firstn 2 [1; 2; 7]%Q) = Ok [d1; d2].
Proof.
  split.
  - apply (proj1 (van_der_pol_dynamics_arity PyFloat_Q 0%Q [1%Q])). simpl. lia.
  - apply (proj2 (van_der_pol_dynamics_arity PyFloat_Q 0%Q [1; 2; 7]%Q)).
    simpl. lia.
Defined.

(** X2: on exact numbers the only state where both derivatives vanish is the
    origin. *)
Theorem van_der_pol_equilibrium :
  forall t x1 x2 : Q,
  exists d1 d2 : Q,
    van_der_pol_dynamics t [x1; x2] = Ok [d1; d2] /\
    ((d1 == 0 /\ d2 == 0)%Q <-> (x1 == 0 /\ x2 == 0)%Q).
Proof.
  intros t x1 x2. do 2 eexists. split; [reflexivity|].
  simpl. split.
  - intros [H1 H2]. split; [|exact H1].
    rewrite H1 in H2. lra.
  - intros [H1 H2]. split; [exact H2|]. rewrite H1, H2. reflexivity.
Qed.

(** X3: on exact numbers the field is odd: negating the state negates both
    derivatives. *)
Theorem van_der_pol_odd_symmetry :
  forall t x1 x2 : Q,
  exists d1 d2 e1 e2 : Q,
    van_der_pol_dynamics t [x1; x2] = Ok [d1; d2] /\
    van_der_pol_dynamics t [- x1; - x2]%Q = Ok [e1; e2] /\
    (e1 == - d1)%Q /\ (e2 == - d2)%Q.
Proof.
  intros t x1 x2. do 4 eexists. split; [reflexivity|]. split; [reflexivity|].
  simpl. split; ring.
Qed.



(** ** Rationals and interpolation *)

Lemma Q_ltb_true (x y : Q) : ltb x y = true <-> (x < y)%Q.
Proof.
  simpl. rewrite negb_true_iff. split.
  - intros E. apply Qnot_le_lt. intros Hle. apply Qle_bool_iff in Hle. congruence.
  - intros Hlt. destruct (Qle_bool y x) eqn:E; [|reflexivity].
    apply Qle_bool_iff in E. lra.
Qed.

Lemma Q_ltb_false (x y : Q) : ltb x y = false <-> (y <= x)%Q.
Proof.
  simpl. rewrite negb_false_iff. apply Qle_bool_iff.
Qed.


Lemma Q_eqb_true (x y : Q) : eqb x y = true <-> (x == y)%Q.
Proof. simpl. apply Qeq_bool_iff. Qed.

(** ** Interpolation on rationals *)

Lemma interp_from_cons (F : Type) (PF : PyFloat F) (x x0 y0 x1 y1 : F)
  (rest : list (F * F)) :
  interp_from x x0 y0 ((x1, y1) :: rest)
  = if ltb x x1
    then if eqb x x0 then y0
         else add (mul (div (sub y1 y0) (sub x1 x0)) (sub x x0)) y0
    else interp_from x x1 y1 rest.
Proof. reflexivity. Qed.



(** At the first knot, with every later knot to its right. *)
Lemma interp_at_first (x x0 y0 : Q) (rest : list (Q * Q)) :
  (x == x0)%Q -> Forall (fun k => (x0 < fst k)%Q) rest ->
  interp_at ((x0, y0) :: rest) x = y0.
Proof.
  intros Hx Hrest. unfold interp_at.
  replace (ltb x x0) with false by (symmetry; apply Q_ltb_false; lra).
  destruct rest as [|[x1 y1] rest]; [reflexivity|].
  apply Forall_inv in Hrest. simpl in Hrest. rewrite interp_from_cons.
  replace (ltb x x1) with true by (symmetry; apply Q_ltb_true; lra).
  replace (eqb x x0) with true by (symmetry; now apply Q_eqb_true).
  reflexivity.
Qed.

(** At or past every knot: the last value. *)
Lemma interp_from_last (x : Q) (rest : list (Q * Q)) :
  forall x0 y0 d,
    Forall (fun k => (fst k <= x)%Q) rest ->
    interp_from x x0 y0 rest = nth (length rest) (y0 :: map snd rest) d.
Proof.
  induction rest as [|[x1 y1] rest IH]; intros x0 y0 d Hrest; [reflexivity|].
  apply Forall_cons_iff in Hrest as [H1 Hrest]. simpl in H1.
  rewrite interp_from_cons.
  replace (ltb x x1) with false by (symmetry; now apply Q_ltb_false).
  rewrite (IH x1 y1 d Hrest). reflexivity.
Qed.

Lemma interp_at_last (x : Q) (xp fp : list Q) (y : Q) :
  xp <> [] -> length xp = length fp ->
  Forall (fun t => (t <= x)%Q) xp ->
  nth_error fp (length xp - 1) = Some y ->
  interp_at (combine xp fp) x = y.
Proof.
  intros Hne Hlen Hle Hy.
  destruct xp as [|x0 xp]; [congruence|]. destruct fp as [|y0 fp]; [discriminate|].
  simpl in Hlen. injection Hlen as Hlen.
  apply Forall_cons_iff in Hle as [H0 Hle].
  simpl combine. unfold interp_at.
  replace (ltb x x0) with false by (symmetry; now apply Q_ltb_false).
  rewrite (interp_from_last _ _ y0).
  - rewrite length_combine, <- Hlen, Nat.min_id.
    replace (map snd (combine xp fp)) with fp.
    + replace (length (x0 :: xp) - 1) with (length xp) in Hy by (simpl; lia).
      now apply nth_error_nth.
    + clear - Hlen. revert fp Hlen.
      induction xp as [|a xp IH]; intros [|b fp] E; simpl in *; try discriminate;
        [reflexivity|]. f_equal. apply IH. lia.
  - apply Forall_forall. intros [a b] Hin. simpl.
    rewrite Forall_forall in Hle. apply Hle. eapply in_combine_l, Hin.
Qed.

(** ** The values of a trajectory *)

Section TrajectoryValues.

Context {F S L : Type} `{PyFloat F} (lib : Library F S L).

Lemma get_random_trajectory_value (w : world F S) r s1 sol s2 grid y0 y1 :
  np_random_rand lib 2 (w_state w) = Ok (r, s1) ->
  solve_ivp lib van_der_pol_dynamics (lit 0, lit 2) (random_initial_state r)
    (lit (1 # 10)) s1 = Ok (sol, s2) ->
  time_grid = Ok grid ->
  sol_y sol = [y0; y1] -> sol_t sol <> [] ->
  length y0 = length (sol_t sol) -> length y1 = length (sol_t sol) ->
  get_random_trajectory lib w =
    Ok ([map (interp_at (combine (sol_t sol) y0)) grid;
         map (interp_at (combine (sol_t sol) y1)) grid],
        {| w_state := s2;
           w_calls := w_calls w ++
             [Call_np_random_rand 2;
              Call_solve_ivp (lit 0, lit 2) (random_initial_state r)
                (lit (1 # 10))] |}).
Proof.
  intros Hrand Hsolve Eg Ey Hne L0 L1.
  rewrite get_random_trajectory_reading. unfold resampled_solver_trajectory.
  erewrite bind_ok by (apply do_call_ok; exact Hrand). cbv zeta.
  erewrite bind_ok by (apply do_call_ok; simpl; exact Hsolve).
  erewrite bind_ok by (apply lift_ok; exact Eg).
  rewrite Ey. simpl index.
  erewrite bind_ok by (apply lift_ok; reflexivity).
  erewrite bind_ok by (apply lift_ok; apply np_interp_ok; [exact Hne|now rewrite L0]).
  erewrite bind_ok by (apply lift_ok; reflexivity).
  erewrite bind_ok by (apply lift_ok; apply np_interp_ok; [exact Hne|now rewrite L1]).
  unfold ret. simpl. rewrite <- app_assoc. reflexivity.
Qed.

Lemma solution_ok_two_rows (r : list F) (sol : OdeResult F) :
  length r = 2 -> solution_ok (random_initial_state r) sol ->
  exists y0 y1,
    sol_y sol = [y0; y1] /\ sol_t sol <> [] /\
    length y0 = length (sol_t sol) /\ length y1 = length (sol_t sol).
Proof.
  intros Hr [Hne [Hrows Hcols]].
  unfold random_initial_state in Hrows. rewrite length_map, Hr in Hrows.
  destruct (sol_y sol) as [|y0 [|y1 [|]]] eqn:Ey; try discriminate.
  apply Forall_cons_iff in Hcols as [L0 Hcols].
  apply Forall_cons_iff in Hcols as [L1 _].
  exists y0, y1. auto.
Qed.

End TrajectoryValues.

Lemma time_grid_Q :
  exists grid : list Q,
    time_grid = Ok grid /\ length grid = 21 /\
    (exists g0, nth_error grid 0 = Some g0 /\ (g0 == 0)%Q) /\
    nth_error grid 20 = Some 2%Q.
Proof.
  eexists. split; [vm_compute; reflexivity|].
  split; [reflexivity|]. split; [|reflexivity].
  eexists. split; [reflexivity|]. vm_compute. reflexivity.
Qed.




Lemma get_col_two {A : Type} (r0 r1 : list A) (j : nat) (v0 v1 : A) :
  nth_error r0 j = Some v0 -> nth_error r1 j = Some v1 ->
  get_col [r0; r1] j = Ok [v0; v1].
Proof.
  intros E0 E1. unfold get_col. simpl.
  now rewrite (index_ok _ _ E0), (index_ok _ _ E1).
Qed.

(** X6: on exact numbers, when the solver's times start at 0, go on above 0
    and do not pass 2, the first sample of the trajectory is the solver's
    first sample and the last (index 20) is the solver's last. *)
Theorem get_random_trajectory_endpoints :
  forall (S L : Type) (lib : Library Q S L) (w : world Q S)
         (r : list Q) (s1 : S) (sol : OdeResult Q) (s2 : S) (t0 : Q) (ts : list Q),
    np_random_rand lib 2 (w_state w) = Ok (r, s1) ->
    solve_ivp lib van_der_pol_dynamics (lit 0, lit 2) (random_initial_state r)
      (lit (1 # 10)) s1 = Ok (sol, s2) ->
    length r = 2 ->
    solution_ok (random_initial_state r) sol ->
    sol_t sol = t0 :: ts -> (t0 == 0)%Q ->
    Forall (fun t => 0 < t /\ t <= 2)%Q ts ->
    exists traj w' first final,
      get_random_trajectory lib w = Ok (traj, w') /\
      get_col (sol_y sol) 0 = Ok first /\ get_col traj 0 = Ok first /\
      get_col (sol_y sol) (length ts) = Ok final /\ get_col traj 20 = Ok final.
Proof.
  intros S L lib w r s1 sol s2 t0 ts Hrand Hsolve Hr Hsol Et H0 Hts.
  destruct (solution_ok_two_rows _ Hr Hsol) as (y0 & y1 & Ey & Hne & L0 & L1).
  destruct time_grid_Q as (grid & Eg & Lg & (g0 & Eg0 & Hg0) & Eg20).
  pose proof (get_random_trajectory_value lib w Hrand Hsolve Eg Ey Hne L0 L1) as E.
  rewrite Et in *.
  destruct y0 as [|a0 y0]; [discriminate|]. destruct y1 as [|a1 y1]; [discriminate|].
  simpl in L0, L1. injection L0 as L0. injection L1 as L1.
  assert (Hlast : forall (a : Q) (y : list Q), length y = length ts ->
            exists v, nth_error (a :: y) (length ts) = Some v /\
                      interp_at (combine (t0 :: ts) (a :: y)) 2%Q = v).
  { intros a y Ly.
    destruct (nth_error (a :: y) (length ts)) as [v|] eqn:Ev;
      [|apply nth_error_None in Ev; simpl in Ev; lia].
    exists v. split; [reflexivity|].
    apply interp_at_last; [discriminate|simpl; lia| |].
    - constructor; [lra|]. eapply Forall_impl; [|exact Hts]. simpl. intros t Ht. lra.
    - replace (length (t0 :: ts) - 1) with (length ts) by (simpl; lia).
      exact Ev. }
  assert (Hfirst : forall (a : Q) (y : list Q),
            interp_at (combine (t0 :: ts) (a :: y)) g0 = a).
  { intros a y. simpl combine. apply interp_at_first; [lra|].
    apply Forall_forall. intros [t b] Hin. simpl.
    rewrite Forall_forall in Hts. apply in_combine_l in Hin.
    specialize (Hts t Hin). lra. }
  destruct (Hlast a0 y0 L0) as (v0 & Ev0 & I0).
  destruct (Hlast a1 y1 L1) as (v1 & Ev1 & I1).
  do 2 eexists. exists [a0; a1], [v0; v1].
  split; [exact E|]. rewrite Ey.
  split; [reflexivity|].
  split; [apply get_col_two; rewrite nth_error_map, Eg0; unfold option_map;
          now rewrite Hfirst|].
  split; [now apply get_col_two|].
  apply get_col_two; rewrite nth_error_map, Eg20; unfold option_map; congruence.
Qed.

Lemma get_random_trajectory_endpoints_witness :
  exists traj w',
    get_random_trajectory (F := Q) (demo_lib None) demo_world = Ok (traj, w') /\
    get_col traj 0 = Ok (random_initial_state [0 # 100; 37 # 100]%Q).
Proof.
  destruct (@get_random_trajectory_endpoints nat Q (demo_lib None) demo_world
              _ _ _ _ 0%Q [2%Q] eq_refl eq_refl eq_refl)
    as (traj & w' & first & final & E & E1 & E2 & _).
  - split; [discriminate|]. split; [reflexivity|]. repeat constructor.
  - reflexivity.
  - reflexivity.
  - repeat constructor; vm_compute; discriminate.
  - exists traj, w'. split; [exact E|]. rewrite E2, <- E1. reflexivity.
Defined.

(** ** The layout of a minibatch *)

Section LayoutFacts.

Context {F S L : Type} `{PyFloat F} (lib : Library F S L).

Lemma keep_first_length (row : list F) : length (keep_first row) = length row.
Proof. destruct row; simpl; [reflexivity|]. now rewrite length_map. Qed.

Lemma keep_first_shape (traj : list (list F)) (r c : nat) :
  shape2 traj r c -> shape2 (map keep_first traj) r c.
Proof.
  intros [Hr Hc]. split; [now rewrite length_map|].
  apply Forall_map. eapply Forall_impl; [|exact Hc].
  intros row Hrow. now rewrite keep_first_length.
Qed.

Lemma keep_first_nth (row : list F) (t : nat) (x : F) :
  nth_error row t = Some x ->
  nth t (keep_first row) zero = if Nat.eqb t 0 then x else zero.
Proof.
  destruct row as [|a row]; [destruct t; discriminate|].
  destruct t as [|t]; simpl.
  - now intros [= ->].
  - intros _. apply nth_const_map.
Qed.

(** The first column of a [(2, K)] trajectory written into zeros. *)
Lemma first_column_arrays (traj : list (list F)) :
  1 <= K (F := F) -> shape2 traj 2 K ->
  exists x0,
    get_col traj 0 = Ok x0 /\
    set_col (np_zeros_like traj) 0 x0 = Ok (map keep_first traj).
Proof.
  intros HK [Hr Hc].
  destruct traj as [|r0 [|r1 [|]]]; try discriminate.
  apply Forall_cons_iff in Hc as [L0 Hc]. apply Forall_cons_iff in Hc as [L1 _].
  destruct r0 as [|a r0]; [simpl in L0; lia|].
  destruct r1 as [|b r1]; [simpl in L1; lia|].
  exists [a; b]. split; reflexivity.
Qed.

Hypothesis lib_ok : numeric_calls_ok lib.
Hypothesis K_pos : 1 <= K (F := F).

Lemma draw_and_loop (n : nat) (w : world F S) :
  exists exs w' draws,
    draw_trajectories lib n w = Ok (exs, w') /\
    for_range n (get_minibatch_body lib) ([], []) w
      = Ok ((map (fun t => transpose zero (map keep_first t)) exs,
             map (transpose zero) exs), w') /\
    length exs = n /\ Forall (fun t => shape2 t 2 K) exs /\
    w_calls w' = w_calls w ++ draws /\ length draws = 2 * n /\
    count is_rand2 draws = n /\ count is_solve_ivp draws = n.
Proof.
  unfold draw_trajectories. induction n as [|n IH].
  - exists [], w, []. simpl. rewrite app_nil_r. repeat split; constructor.
  - destruct IH as (exs & w1 & draws & Ed & El & Hlen & Hall & Hc & Hd & Hr & Hs).
    destruct (get_random_trajectory_total lib_ok K_pos w1)
      as (traj & w2 & c1 & c2 & Et & Hshape & Hc2 & H1 & H2).
    destruct (first_column_arrays K_pos Hshape) as (x0 & Ex & Ei).
    exists (exs ++ [traj]), w2, (draws ++ [c1; c2]).
    split.
    { rewrite for_range_S. erewrite bind_ok by exact Ed.
      erewrite bind_ok by exact Et. reflexivity. }
    split.
    { rewrite for_range_S. erewrite bind_ok by exact El.
      unfold get_minibatch_body.
      erewrite bind_ok by exact Et.
      erewrite bind_ok by (apply lift_ok; exact Ex).
      erewrite bind_ok by (apply lift_ok; exact Ei).
      rewrite !map_app. reflexivity. }
    split; [rewrite length_app; simpl; lia|].
    split; [apply Forall_app; split; [exact Hall|constructor; [exact Hshape|constructor]]|].
    split; [rewrite Hc2, Hc, app_assoc; reflexivity|].
    split; [rewrite length_app; simpl; lia|].
    destruct c1 as [[|[|[|k]]]| | | | | | | | |]; try discriminate.
    destruct c2; try discriminate.
    unfold count in *. rewrite !filter_app, !length_app. simpl. lia.
Qed.

End LayoutFacts.

(** X7: the layout of a minibatch: with [exs] the [n] trajectories drawn one
    after the other from the same state, [trajectories[t, i, e]] is
    [exs[i][e][t]] rounded to float32, and [inputs[t, i, e]] is the same at
    [t = 0] and the rounded zero at every later step. *)
Theorem get_minibatch_layout :
  forall (F S L : Type) (PF : PyFloat F) (lib : Library F S L) (n : nat)
         (w : world F S),
    numeric_calls_ok lib -> 1 <= K (F := F) -> 1 <= n ->
    exists exs inputs trajectories w',
      draw_trajectories lib n w = Ok (exs, w') /\
      get_minibatch lib n w = Ok ((Nd3 inputs, Nd3 trajectories), w') /\
      length exs = n /\
      forall i e t ex x,
        nth_error exs i = Some ex -> index2 ex e t = Ok x ->
        index3e trajectories t i e = Ok (float32 x) /\
        index3e inputs t i e = Ok (float32 (if Nat.eqb t 0 then x else zero)).
Proof.
  intros F S L PF lib n w Hlib HK Hn.
  destruct (draw_and_loop Hlib HK n w)
    as (exs & w' & draws & Ed & El & Hlen & Hall & _).
  set (ins := map (fun t => transpose zero (map keep_first t)) exs) in *.
  set (trs := map (transpose zero) exs) in *.
  assert (Hins : Forall (fun m => shape2 m K 2) ins).
  { unfold ins. apply Forall_map. eapply Forall_impl; [|exact Hall].
    intros t Ht. apply transpose_shape; [now apply keep_first_shape|lia]. }
  assert (Htrs : Forall (fun m => shape2 m K 2) trs).
  { unfold trs. apply Forall_map. eapply Forall_impl; [|exact Hall].
    intros t Ht. apply transpose_shape; [exact Ht|lia]. }
  assert (Li : length ins = n) by (unfold ins; now rewrite length_map).
  assert (Lt : length trs = n) by (unfold trs; now rewrite length_map).
  destruct (stacked_tensor Hn Li Hins) as (I & EI & TI & SI & CI).
  destruct (stacked_tensor Hn Lt Htrs) as (T & ET & TT & ST & CT).
  exists exs, (map (map (map float32)) I), (map (map (map float32)) T), w'.
  split; [exact Ed|]. split.
  { unfold get_minibatch. erewrite bind_ok by exact El. cbv beta iota.
    erewrite bind_ok by (apply lift_ok; exact EI).
    erewrite bind_ok by (apply lift_ok; exact ET).
    unfold ret. now rewrite TI, TT. }
  split; [exact Hlen|].
  intros i e t ex x Hex Hx.
  apply index2_inv in Hx as (row & Hrow & Hx).
  assert (Hsh : shape2 ex 2 K).
  { rewrite Forall_forall in Hall. eapply Hall, nth_error_In, Hex. }
  assert (Ht : t < K).
  { destruct Hsh as [_ Hc]. rewrite Forall_forall in Hc.
    rewrite <- (Hc row (nth_error_In _ _ Hrow)). eapply nth_error_lt, Hx. }
  split.
  - unfold index3e. erewrite rbind_ok.
    2:{ apply (CT t i (transpose zero ex)).
        - unfold trs. now rewrite nth_error_map, Hex.
        - apply (transpose_nth zero Hsh); lia. }
    apply index_ok. rewrite !nth_error_map, Hrow. simpl.
    now rewrite (nth_error_nth _ _ _ Hx).
  - unfold index3e. erewrite rbind_ok.
    2:{ apply (CI t i (transpose zero (map keep_first ex))).
        - unfold ins. now rewrite nth_error_map, Hex.
        - apply (transpose_nth zero (keep_first_shape Hsh)); lia. }
    apply index_ok. rewrite !nth_error_map, Hrow. simpl.
    now rewrite (keep_first_nth _ _ Hx).
Qed.

Lemma get_minibatch_layout_witness :
  exists exs inputs trajectories w',
    draw_trajectories (F := Q) (demo_lib None) 2 demo_world = Ok (exs, w') /\
    get_minibatch (demo_lib None) 2 demo_world
      = Ok ((Nd3 inputs, Nd3 trajectories), w') /\
    length exs = 2 /\
    forall i e t ex x,
      nth_error exs i = Some ex -> index2 ex e t = Ok x ->
      index3e trajectories t i e = Ok x /\
      index3e inputs t i e = Ok (if Nat.eqb t 0 then x else 0%Q).
Proof.
  refine (@get_minibatch_layout Q nat Q _ (demo_lib None) 2 demo_world _ _ _).
  - apply demo_lib_numeric_ok.
  - vm_compute. lia.
  - lia.
Defined.

(** X8: [get_minibatch(n)] makes [2 n] library calls: [n] of
    [np.random.rand(2)], [n] of [solve_ivp], and no other. *)
Theorem get_minibatch_calls :
  forall (F S L : Type) (PF : PyFloat F) (lib : Library F S L) (n : nat)
         (w : world F S),
    numeric_calls_ok lib -> 1 <= K (F := F) -> 1 <= n ->
    exists batch w' draws,
      get_minibatch lib n w = Ok (batch, w') /\
      w_calls w' = w_calls w ++ draws /\
      length draws = 2 * n /\
      count is_rand2 draws = n /\ count is_solve_ivp draws = n.
Proof.
  intros F S L PF lib n w Hlib HK Hn.
  destruct (get_minibatch_returns Hlib HK w Hn)
    as (ins & trs & w' & draws & E & _ & _ & _ & Hc & Hd & Hr & Hs).
  exists (Nd3 ins, Nd3 trs), w', draws. auto.
Qed.

Lemma get_minibatch_calls_witness :
  exists batch w' draws,
    get_minibatch (F := Q) (demo_lib None) 3 demo_world = Ok (batch, w') /\
    w_calls w' = draws /\ length draws = 6 /\
    count is_rand2 draws = 3 /\ count is_solve_ivp draws = 3.
Proof.
  refine (@get_minibatch_calls Q nat Q _ (demo_lib None) 3 demo_world _ _ _).
  - apply demo_lib_numeric_ok.
  - vm_compute. lia.
  - lia.
Defined.

(** ** The training loop, pass by pass *)

Section PrintFacts.

Context {F : Type} `{PyFloat F}.

Lemma print_batches_app (l l' : list (call F)) :
  print_batches (l ++ l') = print_batches l ++ print_batches l'.
Proof. unfold print_batches. apply flat_map_app. Qed.

Lemma printed_losses_app (l l' : list (call F)) :
  printed_losses (l ++ l') = printed_losses l ++ printed_losses l'.
Proof. unfold printed_losses. apply flat_map_app. Qed.

(** A trace made of [rand] and [solve_ivp] calls only prints nothing. *)
Lemma draws_print_nothing (l : list (call F)) :
  count is_rand2 l + count is_solve_ivp l = length l ->
  print_batches l = [] /\ printed_losses l = [].
Proof.
  induction l as [|c l IH]; [auto|].
  pose proof (count_kinds_le l) as Hle.
  unfold count in *. simpl.
  destruct c as [[|[|[|k]]]| | | | | | | | |]; simpl; intros E;
    try (exfalso; lia); apply IH; lia.
Qed.

End PrintFacts.

Section PassFacts.

Context {F S L : Type} `{PyFloat F} (lib : Library F S L).

Hypothesis lib_ok : numeric_calls_ok lib.
Hypothesis torch_ok : training_calls_ok lib.
Hypothesis K_pos : 1 <= K (F := F).

(** An invariant of the running loss: kept by one smoothing step with any
    value [loss.item()] can return on a loss the model computed. *)
Variable P : F -> Prop.
Hypothesis P_step :
  forall (rl x : F) (i t : ndarray F) (s0 : S) (l : L) (s1 s s' : S),
    P rl -> run_model_loss lib i t s0 = Ok (l, s1) ->
    loss_item lib l s = Ok (x, s') ->
    P (add (mul (lit (9 # 10)) rl) (mul (lit (1 # 10)) x)).

Lemma training_body_pass (k : nat) (rl : F) (w : world F S) :
  P rl ->
  exists rl' w' cs,
    training_body lib k rl w = Ok (rl', w') /\
    w_calls w' = w_calls w ++ cs /\ P rl' /\
    print_batches cs
    = (if Nat.eqb (k mod 50) 49 then [(Z.of_nat k + 1)%Z] else []) /\
    Forall P (printed_losses cs).
Proof.
  intros HP.
  destruct torch_ok as (Hzero & Hrun & Hback & Hitem & Hprint & Hstep).
  unfold training_body.
  destruct (Hzero (w_state w)) as (s1 & E1).
  erewrite bind_ok by (apply do_call_ok; exact E1). cbv beta.
  match goal with |- context [bind (get_minibatch lib 20) ?k ?w1] =>
    destruct (get_minibatch_returns lib_ok K_pos (n := 20) w1 ltac:(lia))
      as (ins & trs & w2 & draws & E2 & _ & _ & _ & C2 & Ld & Cr & Cs)
  end.
  erewrite bind_ok by exact E2. cbv beta iota.
  destruct (Hrun (Nd3 ins) (Nd3 trs) (w_state w2)) as (l & s3 & E3).
  erewrite bind_ok by (apply do_call_ok; exact E3).
  destruct (Hback l s3) as (s4 & E4).
  erewrite bind_ok by (apply do_call_ok; exact E4).
  destruct (Hitem l s4) as (x & s5 & E5).
  erewrite bind_ok by (apply do_call_ok; exact E5).
  cbv zeta.
  pose proof (@P_step _ _ _ _ _ _ _ _ _ HP E3 E5) as HP'.
  set (rl' := add (mul (lit (9 # 10)) rl) (mul (lit (1 # 10)) x)) in *.
  destruct (draws_print_nothing draws ltac:(lia)) as [Db Dl].
  destruct (Hprint (Z.of_nat k + 1)%Z rl' s5) as (s6 & E6).
  destruct (Nat.eqb (k mod 50) 49).
  - erewrite bind_ok by (apply do_call_ok; exact E6).
    destruct (Hstep s6) as (s7 & E7).
    erewrite bind_ok by (apply do_call_ok; exact E7).
    exists rl'. eexists.
    exists ([Call_model_zero_grad] ++ draws
            ++ [Call_run_model_loss (Nd3 ins) (Nd3 trs); Call_loss_backward;
                Call_loss_item]
            ++ [Call_py_print (Z.of_nat k + 1) rl'] ++ [Call_optimizer_step]).
    split; [reflexivity|]. split; [simpl; rewrite C2; simpl;
                                   now rewrite <- !app_assoc|].
    split; [exact HP'|].
    rewrite !print_batches_app, !printed_losses_app, Db, Dl. simpl.
    split; [reflexivity|]. constructor; [exact HP'|constructor].
  - erewrite bind_ok by reflexivity.
    destruct (Hstep s5) as (s7 & E7).
    erewrite bind_ok by (apply do_call_ok; exact E7).
    exists rl'. eexists.
    exists ([Call_model_zero_grad] ++ draws
            ++ [Call_run_model_loss (Nd3 ins) (Nd3 trs); Call_loss_backward;
                Call_loss_item]
            ++ [Call_optimizer_step]).
    split; [reflexivity|]. split; [simpl; rewrite C2; simpl;
                                   now rewrite <- !app_assoc|].
    split; [exact HP'|].
    rewrite !print_batches_app, !printed_losses_app, Db, Dl. simpl.
    split; [reflexivity|constructor].
Qed.

Lemma training_passes_detail (n : nat) (acc : F) (w : world F S) :
  P acc ->
  exists rl w' new,
    for_range n (training_body lib) acc w = Ok (rl, w') /\
    w_calls w' = w_calls w ++ new /\ P rl /\
    print_batches new
    = flat_map (fun k => if Nat.eqb (k mod 50) 49 then [(Z.of_nat k + 1)%Z]
                         else []) (seq 0 n) /\
    Forall P (printed_losses new).
Proof.
  intros HP. induction n as [|n IH].
  - exists acc, w, []. simpl. rewrite app_nil_r. repeat split; auto.
  - destruct IH as (rl & w1 & new & E & Hc & HP1 & Hb & Hl).
    destruct (training_body_pass n w1 HP1) as (rl' & w2 & cs & Eb & Hc2 & HP2 & Hb2 & Hl2).
    exists rl', w2, (new ++ cs).
    split; [rewrite for_range_S; erewrite bind_ok by exact E; exact Eb|].
    split; [rewrite Hc2, Hc, app_assoc; reflexivity|].
    split; [exact HP2|].
    split.
    + rewrite print_batches_app, Hb, Hb2, seq_S, flat_map_app. simpl.
      now rewrite app_nil_r.
    + rewrite printed_losses_app. apply Forall_app. auto.
Qed.

End PassFacts.

(** X11: the training loop prints 40 times, and the batch numbers it prints
    are 50, 100, ..., 2000 in this order. *)
Theorem training_loop_print_schedule :
  forall (F S L : Type) (PF : PyFloat F) (lib : Library F S L) (w : world F S),
    numeric_calls_ok lib -> training_calls_ok lib -> 1 <= K (F := F) ->
    exists running_loss w' new,
      training_loop lib w = Ok (running_loss, w') /\
      w_calls w' = w_calls w ++ new /\
      print_batches new = map (fun j => (50 * (Z.of_nat j + 1))%Z) (seq 0 40).
Proof.
  intros F S L PF lib w Hlib Htorch HK.
  destruct (@training_passes_detail F S L PF lib Hlib Htorch HK (fun _ => True)
              (fun _ _ _ _ _ _ _ _ _ _ _ _ => I) 2000 (lit 0) w I)
    as (rl & w' & new & E & Hc & _ & Hb & _).
  exists rl, w', new. split; [exact E|]. split; [exact Hc|].
  rewrite Hb. vm_compute. reflexivity.
Qed.

Lemma training_loop_print_schedule_witness :
  exists running_loss w' new,
    training_loop (F := Q) (demo_lib None) demo_world = Ok (running_loss, w') /\
    w_calls w' = w_calls (demo_world (F := Q)) ++ new /\
    print_batches new = map (fun j => (50 * (Z.of_nat j + 1))%Z) (seq 0 40).
Proof.
  apply (@training_loop_print_schedule Q nat Q _ (demo_lib None) demo_world).
  - apply demo_lib_numeric_ok.
  - apply demo_lib_training_ok.
  - vm_compute. lia.
Defined.



(** ** What a minibatch leaves alone *)

Section StateInvariant.

Context {F S L : Type} `{PyFloat F} (lib : Library F S L).

(** A property of the process state that the two numeric calls keep. *)
Variable Inv : S -> Prop.
Hypothesis rand_keeps :
  forall k s r s', np_random_rand lib k s = Ok (r, s') -> Inv s -> Inv s'.
Hypothesis solve_keeps :
  forall f span y0 ms s sol s',
    solve_ivp lib f span y0 ms s = Ok (sol, s') -> Inv s -> Inv s'.

Lemma get_random_trajectory_keeps (w w' : world F S) traj :
  get_random_trajectory lib w = Ok (traj, w') ->
  Inv (w_state w) -> Inv (w_state w').
Proof.
  rewrite get_random_trajectory_reading. unfold resampled_solver_trajectory.
  unfold bind, do_call, lift, ret.
  destruct (np_random_rand lib 2 (w_state w)) as [[r s1]|] eqn:E1; [|discriminate].
  simpl w_state.
  destruct (solve_ivp lib _ _ _ _ s1) as [[sol s2]|] eqn:E2; [|discriminate].
  destruct time_grid; [|discriminate].
  destruct (index (sol_y sol) 0); [|discriminate].
  destruct (np_interp _ _ _); [|discriminate].
  destruct (index (sol_y sol) 1); [|discriminate].
  destruct (np_interp _ _ _); [|discriminate].
  intros [= _ <-] Hw. simpl. eauto.
Qed.

Lemma for_each_keeps {A I : Type} (body : I -> A -> prog F S A) (P : world F S -> Prop) :
  (forall i acc w acc' w', body i acc w = Ok (acc', w') -> P w -> P w') ->
  forall l acc w acc' w',
    for_each body l acc w = Ok (acc', w') -> P w -> P w'.
Proof.
  intros Hbody l. induction l as [|i l IH]; intros acc w acc' w'; simpl.
  - unfold ret. now intros [= _ <-].
  - unfold bind. destruct (body i acc w) as [[a w1]|] eqn:E; [|discriminate].
    intros El Hw. eapply IH; [exact El|]. eapply Hbody; eauto.
Qed.

Lemma get_minibatch_body_keeps (i : nat) acc (w w' : world F S) acc' :
  get_minibatch_body lib i acc w = Ok (acc', w') ->
  Inv (w_state w) -> Inv (w_state w').
Proof.
  destruct acc as [ins trs]. unfold get_minibatch_body, bind.
  destruct (get_random_trajectory lib w) as [[traj w1]|] eqn:E; [|discriminate].
  unfold lift, ret.
  destruct (get_col traj 0); [|discriminate].
  destruct (set_col _ _ _); [|discriminate].
  intros [= _ <-]. now apply (get_random_trajectory_keeps _ E).
Qed.

Lemma get_minibatch_keeps (n : nat) (w w' : world F S) batch :
  get_minibatch lib n w = Ok (batch, w') ->
  Inv (w_state w) -> Inv (w_state w').
Proof.
  unfold get_minibatch, bind.
  destruct (for_range n (get_minibatch_body lib) ([], []) w)
    as [[[ins trs] w1]|] eqn:E; [|discriminate].
  unfold lift, ret.
  destruct (rbind (np_array ins) swapaxes01); [|discriminate].
  destruct (rbind (np_array trs) swapaxes01); [|discriminate].
  intros [= _ <-].
  unfold for_range in E.
  eapply for_each_keeps with (P := fun w0 => Inv (w_state w0)); [|exact E].
  intros i acc w0 acc' w0'. apply get_minibatch_body_keeps.
Qed.

End StateInvariant.

(** X9: [get_minibatch] changes the process state through [np.random.rand]
    and [solve_ivp] only: a property of the state that these two calls keep
    holds after [get_minibatch] when it held before (so drawing data leaves
    the model, the optimizer and the figures as they were). *)
Theorem get_minibatch_state_invariant :
  forall (F S L : Type) (PF : PyFloat F) (lib : Library F S L) (Inv : S -> Prop)
         (n : nat) (w w' : world F S) (batch : ndarray F * ndarray F),
    (forall k s r s', np_random_rand lib k s = Ok (r, s') -> Inv s -> Inv s') ->
    (forall f span y0 ms s sol s',
        solve_ivp lib f span y0 ms s = Ok (sol, s') -> Inv s -> Inv s') ->
    get_minibatch lib n w = Ok (batch, w') ->
    Inv (w_state w) -> Inv (w_state w').
Proof.
  intros F S L PF lib Inv n w w' batch Hr Hs E Hw.
  eapply get_minibatch_keeps; eauto.
Qed.

Lemma get_minibatch_state_invariant_witness :
  match get_minibatch (F := Q) (demo_lib None) 2
          {| w_state := 7; w_calls := [] |} with
  | Ok (_, w') => 7 <= w_state w'
  | Raise _ => True
  end.
Proof.
  destruct (get_minibatch (F := Q) (demo_lib None) 2
              {| w_state := 7; w_calls := [] |}) as [[batch w']|e] eqn:E;
    [|exact I].
  refine (@get_minibatch_state_invariant Q nat Q _ (demo_lib None)
            (fun s => 7 <= s) 2 _ w' batch _ _ E _).
  - intros k s r s' Hk Hs. simpl in Hk. injection Hk as _ <-. lia.
  - intros f [t0 tf] y0 ms s sol s' Hk Hs. simpl in Hk.
    destruct (f t0 y0); [|discriminate]. injection Hk as _ <-. exact Hs.
  - simpl. lia.
Defined.

(** ** The script cells *)

Section ScriptFacts.

Context {F S L : Type} `{PyFloat F}.
Context (lib : Library F S L) (script : ScriptLibrary F S).

Lemma do_script_call_ok {X : Type} (c : script_call F) (f : S -> result (X * S))
  (w : world F (S * list (script_call F))) x s' :
  f (fst (w_state w)) = Ok (x, s') ->
  do_script_call c f w
  = Ok (x, {| w_state := (s', snd (w_state w) ++ [c]); w_calls := w_calls w |}).
Proof. unfold do_script_call. now intros ->. Qed.


(** The slices of the loop of the last cell on an output of three
    dimensions. *)
Lemma slice_axis1_ok (out : list (list (list F))) (k n d i : nat) :
  shape3 out k n d -> i < n ->
  slice_axis1 (Nd3 out) i = Ok (map (fun m => nth i m []) out).
Proof.
  intros [_ Hout] Hi. unfold slice_axis1. apply rmap_ok.
  eapply Forall_impl; [|exact Hout]. intros m [Hm _].
  apply index_ok. apply nth_error_nth'. lia.
Qed.

Lemma get_col_slice (out : list (list (list F))) (k n d i j : nat) :
  shape3 out k n d -> i < n -> j < d ->
  get_col (map (fun m => nth i m []) out) j
  = Ok (map (fun m => nth j (nth i m []) zero) out).
Proof.
  intros [_ Hout] Hi Hj. unfold get_col.
  rewrite <- (map_map (fun m => nth i m []) (fun row => nth j row zero)).
  apply rmap_ok. apply Forall_map.
  eapply Forall_impl; [|exact Hout]. intros m [Hm Hrows].
  apply index_ok. apply nth_error_nth'.
  rewrite Forall_forall in Hrows. rewrite (Hrows (nth i m [])); [exact Hj|].
  apply nth_In. lia.
Qed.

Hypothesis plot_ok : plot_calls_ok lib script.

Lemma plot_example_ok (out : list (list (list F))) (k n d i : nat)
  (w : world F (S * list (script_call F))) :
  shape3 out k n d -> 2 <= d -> i < n ->
  exists s',
    plot_example script (Nd3 out) i tt w
    = Ok (tt, {| w_state := (s', snd (w_state w) ++ [example_curve out i]);
                 w_calls := w_calls w |}).
Proof.
  intros Hout Hd Hi. destruct plot_ok as (_ & _ & Hplot & _).
  unfold plot_example.
  erewrite bind_ok by (apply lift_ok; exact (slice_axis1_ok Hout Hi)).
  erewrite bind_ok by (apply lift_ok; apply (get_col_slice Hout Hi); lia).
  erewrite bind_ok by (apply lift_ok; apply (get_col_slice Hout Hi); lia).
  match goal with |- context [plt_plot script ?xs ?ys] =>
    destruct (Hplot xs ys (fst (w_state w))) as (s' & E)
  end.
  exists s'. now apply do_script_call_ok.
Qed.

Lemma plot_examples_loop (out : list (list (list F))) (k n d m : nat)
  (w : world F (S * list (script_call F))) :
  shape3 out k n d -> 2 <= d -> m <= n ->
  exists s',
    for_range m (plot_example script (Nd3 out)) tt w
    = Ok (tt, {| w_state := (s', snd (w_state w)
                                 ++ map (example_curve out) (seq 0 m));
                 w_calls := w_calls w |}).
Proof.
  intros Hout Hd. induction m as [|m IH]; intros Hm.
  - exists (fst (w_state w)). unfold for_range. simpl. unfold ret.
    rewrite app_nil_r. destruct w as [[s g] c]. reflexivity.
  - destruct (IH ltac:(lia)) as (s1 & E1).
    rewrite for_range_S. erewrite bind_ok by exact E1.
    match goal with |- context [plot_example script (Nd3 out) m tt ?w1] =>
      destruct (@plot_example_ok out k n d m w1 Hout Hd ltac:(lia)) as (s2 & E2)
    end.
    exists s2. rewrite E2, seq_S, map_app. simpl. rewrite <- app_assoc.
    reflexivity.
Qed.

End ScriptFacts.

(** X13: on an output of shape [(k, n, d)] with [k >= 1] and [d >= 2], the
    loop of the last cell draws exactly [n] curves, in the order of the
    examples: for example [i] the first decoded state variable against the
    second, over all [k] steps; it makes no other call. *)
Theorem plot_examples_curves :
  forall (F S L : Type) (PF : PyFloat F) (lib : Library F S L)
         (script : ScriptLibrary F S) (out : list (list (list F)))
         (k n d : nat) (w : world F (S * list (script_call F))),
    plot_calls_ok lib script ->
    shape3 out k n d -> 1 <= k -> 2 <= d ->
    exists w',
      plot_examples script (Nd3 out) w = Ok (tt, w') /\
      snd (w_state w') = snd (w_state w) ++ map (example_curve out) (seq 0 n) /\
      w_calls w' = w_calls w.
Proof.
  intros F S L PF lib script out k n d w Hplot Hout Hk Hd.
  unfold plot_examples.
  assert (Hn : shape_1 (Nd3 out) = Ok n).
  { destruct Hout as [Hlen Hall]. destruct out as [|m out]; [simpl in Hlen; lia|].
    apply Forall_inv in Hall. destruct Hall as [Hm _]. simpl. now rewrite Hm. }
  erewrite bind_ok by (apply lift_ok; exact Hn).
  destruct (plot_examples_loop Hplot w Hout Hd (Nat.le_refl n)) as (s' & E).
  eexists. split; [exact E|]. split; reflexivity.
Qed.


Section CellFacts.

Context {F S L : Type} `{PyFloat F}.
Context (lib : Library F S L) (script : ScriptLibrary F S).

Hypothesis plot_ok : plot_calls_ok lib script.


Hypothesis lib_ok : numeric_calls_ok lib.
Hypothesis K_pos : 1 <= K (F := F).


End CellFacts.


Lemma demo_plot_calls_ok (F : Type) (PF : PyFloat F) :
  plot_calls_ok (demo_lib (F := F) None) demo_script.
Proof. repeat split; intros; eexists; reflexivity. Qed.


Lemma plot_examples_curves_witness :
  exists w',
    plot_examples (F := Q) demo_script (Nd3 demo_input) demo_script_world
      = Ok (tt, w') /\
    snd (w_state w')
    = [Call_plt_plot [1; 0; 0]%Q [2; 0; 0]%Q; Call_plt_plot [3; 0; 0]%Q [4; 0; 0]%Q] /\
    w_calls w' = [].
Proof.
  refine (@plot_examples_curves Q nat Q _ (demo_lib None) demo_script demo_input
            3 2 2 demo_script_world _ _ _ _).
  - apply demo_plot_calls_ok.
  - unfold shape3, shape2. simpl. repeat split; repeat constructor.
  - lia.
  - lia.
Defined.


